(** * iitm-assignment-helper: the question router of [api/index.py]

    A shallow embedding of the Flask endpoint, the router
    [process_assignment_question] and its five handlers, followed by the
    properties of the specification that can be stated about them.

    Modelling conventions.
    - Text (a Python [str]) is a [string] whose characters stand for the code
      points below 256.  On that range Python's case folding, [\w], [\s] and
      [str.lower] are the tables written out below.
    - An exception is represented by its message, [str(e)]: every [except]
      clause of the source catches [Exception] and only formats the message.
    - Third-party services (the completion API, the HTTP client, the HTML
      parser, the video metadata fetcher, the ZIP reader, the CSV reader, the
      temporary-name generator) are fields of an environment record [Env].
    - The file system and a log of entered handlers are threaded as state. *)

From Stdlib Require Import Ascii String NArith ZArith DecimalString.
From stdpp Require Import gmap strings list fin_maps.

Local Open Scope string_scope.

(** ** Characters *)

Module Char.

Definition code (c : ascii) : N := N_of_ascii c.

Definition in_range (lo hi : N) (c : ascii) : bool :=
  ((lo <=? code c) && (code c <=? hi))%N.

(** Upper-case letters with a lower-case partner below 256: A-Z, and the
    Latin-1 capitals U+00C0..U+00DE without the multiplication sign U+00D7. *)
Definition is_upper (c : ascii) : bool :=
  in_range 65 90 c || in_range 192 214 c || in_range 216 222 c.

(** [str.lower] and the case folding of [re.IGNORECASE] on one character. *)
Definition lower (c : ascii) : ascii :=
  if is_upper c then ascii_of_N (code c + 32) else c.

(** [\w] on a [str] pattern: alphanumeric characters and the underscore. *)
Definition is_word (c : ascii) : bool :=
  in_range 48 57 c || in_range 65 90 c || in_range 97 122 c
  || (code c =? 95)%N
  || (code c =? 170)%N || (code c =? 178)%N || (code c =? 179)%N
  || (code c =? 181)%N || (code c =? 185)%N || (code c =? 186)%N
  || in_range 188 190 c || in_range 192 214 c || in_range 216 246 c
  || in_range 248 255 c.

(** [\s] on a [str] pattern, and the characters removed by [str.strip()]. *)
Definition is_space (c : ascii) : bool :=
  in_range 9 13 c || in_range 28 32 c || (code c =? 133)%N || (code c =? 160)%N.

Definition eqb_ci (a b : ascii) : bool := Ascii.eqb (lower a) (lower b).

End Char.

(** ** Strings: the [str] methods the source uses *)

Module Str.

Definition nl : string := String (ascii_of_nat 10) "".

Fixpoint lower (s : string) : string :=
  match s with
  | "" => ""
  | String c s' => String (Char.lower c) (lower s')
  end.

(** [s.startswith(p)] *)
Fixpoint startswith (s p : string) : bool :=
  match p, s with
  | "", _ => true
  | String a p', String b s' => Ascii.eqb a b && startswith s' p'
  | String _ _, "" => false
  end.

(** [sub in s] *)
Fixpoint contains (s sub : string) : bool :=
  startswith s sub ||
  match s with
  | "" => false
  | String _ s' => contains s' sub
  end.

(** [s.endswith(suf)]: some suffix of [s] is [suf]. *)
Fixpoint endswith (s suf : string) : bool :=
  String.eqb s suf ||
  match s with
  | "" => false
  | String _ s' => endswith s' suf
  end.

(** [s[:n]] *)
Fixpoint take (n : nat) (s : string) : string :=
  match n, s with
  | S n', String c s' => String c (take n' s')
  | _, _ => ""
  end.

Fixpoint drop (n : nat) (s : string) : string :=
  match n, s with
  | S n', String _ s' => drop n' s'
  | _, _ => s
  end.

Fixpoint lstrip (s : string) : string :=
  match s with
  | String c s' => if Char.is_space c then lstrip s' else s
  | "" => ""
  end.

Fixpoint rstrip (s : string) : string :=
  match s with
  | "" => ""
  | String c s' =>
      match rstrip s' with
      | "" => if Char.is_space c then "" else String c ""
      | r => String c r
      end
  end.

(** [s.strip()] *)
Definition strip (s : string) : string := rstrip (lstrip s).

Fixpoint has_char (c : ascii) (s : string) : bool :=
  match s with
  | "" => false
  | String b s' => Ascii.eqb b c || has_char c s'
  end.

(** The last path component, [os.path.basename]. *)
Fixpoint basename (s : string) : string :=
  match s with
  | "" => ""
  | String c s' =>
      if has_char "/" s' then basename s'
      else if Ascii.eqb c "/" then s' else s
  end.

End Str.

(** ** Regular expressions: the fragment of [re] the source uses

    A backtracking matcher in continuation-passing style.  The continuation
    receives the character before the current position (needed by [\b]) and
    the rest of the text; alternatives are tried in the order in which the
    [re] module tries them (left alternative first, greedy repetition). *)

Module Re.

Inductive regex : Type :=
  | Eps                                (* the empty pattern *)
  | Lit (c : ascii)                    (* a literal character *)
  | Class (p : ascii -> bool)          (* one character of a class *)
  | Cat (r1 r2 : regex)                (* r1 r2 *)
  | Alt (r1 r2 : regex)                (* r1|r2 *)
  | Opt (r : regex)                    (* r? *)
  | Plus (p : ascii -> bool)           (* [class]+ *)
  | Boundary.                          (* \b *)

(** A run of literal characters, as in [youtube]. *)
Fixpoint lits (s : string) : regex :=
  match s with
  | "" => Eps
  | String c s' => Cat (Lit c) (lits s')
  end.

Definition word_opt (o : option ascii) : bool :=
  match o with
  | Some c => Char.is_word c
  | None => false
  end.

Definition head (s : string) : option ascii :=
  match s with
  | "" => None
  | String c _ => Some c
  end.

Section Match.
Context {A : Type}.
(** [ic] is the [re.IGNORECASE] flag. *)
Variable ic : bool.

Definition lit_ok (c b : ascii) : bool :=
  if ic then Char.eqb_ci c b else Ascii.eqb c b.

Fixpoint plus (p : ascii -> bool) (s : string)
    (k : option ascii -> string -> option A) : option A :=
  match s with
  | "" => None
  | String c s' =>
      if p c then
        match plus p s' k with
        | Some a => Some a
        | None => k (Some c) s'
        end
      else None
  end.

Fixpoint go (r : regex) (prev : option ascii) (s : string)
    (k : option ascii -> string -> option A) : option A :=
  match r with
  | Eps => k prev s
  | Lit c =>
      match s with
      | String b s' => if lit_ok c b then k (Some b) s' else None
      | "" => None
      end
  | Class p =>
      match s with
      | String b s' => if p b then k (Some b) s' else None
      | "" => None
      end
  | Cat r1 r2 => go r1 prev s (fun prev' s' => go r2 prev' s' k)
  | Alt r1 r2 =>
      match go r1 prev s k with
      | Some a => Some a
      | None => go r2 prev s k
      end
  | Opt r1 =>
      match go r1 prev s k with
      | Some a => Some a
      | None => k prev s
      end
  | Plus p => plus p s k
  | Boundary =>
      if xorb (word_opt prev) (word_opt (head s)) then k prev s else None
  end.
End Match.

(** The text matched at the start of [s], if the pattern matches there. *)
Definition match_here (ic : bool) (r : regex) (prev : option ascii)
    (s : string) : option string :=
  go ic r prev s (fun _ rest => Some (Str.take (String.length s - String.length rest) s)).

(** The leftmost match: the matched text and what follows it. *)
Fixpoint search_from (ic : bool) (r : regex) (prev : option ascii)
    (s : string) : option (string * string) :=
  match match_here ic r prev s with
  | Some m => Some (m, Str.drop (String.length m) s)
  | None =>
      match s with
      | "" => None
      | String c s' => search_from ic r (Some c) s'
      end
  end.

(** The truth value of [re.search(r, s, flags)]. *)
Definition search (ic : bool) (r : regex) (s : string) : bool :=
  match search_from ic r None s with
  | Some _ => true
  | None => false
  end.

Definition last_char (prev : option ascii) (m : string) : option ascii :=
  match Str.drop (String.length m - 1) m with
  | String c _ => Some c
  | "" => prev
  end.

(** [re.findall(r, s)], called without flags as the source does, for a
    pattern whose first group is the whole match and that matches no empty
    text: the successive leftmost matches, none overlapping the one before. *)
Fixpoint findall_from (fuel : nat) (r : regex) (prev : option ascii)
    (s : string) : list string :=
  match fuel with
  | O => []
  | S fuel' =>
      match search_from false r prev s with
      | Some (m, rest) => m :: findall_from fuel' r (last_char prev m) rest
      | None => []
      end
  end.

Definition findall (r : regex) (s : string) : list string :=
  findall_from (S (String.length s)) r None s.

(** *** The patterns of [api/index.py] *)

Definition nonspace (c : ascii) : bool := negb (Char.is_space c).
Definition word_or_dash (c : ascii) : bool := Char.is_word c || Ascii.eqb c "-".

(** [\.zip\b], [\.csv\b], [\.pdf\b] *)
Definition ext_pattern (ext : string) : regex := Cat (lits ext) Boundary.

(** [youtube\.com|youtu\.be] *)
Definition youtube_pattern : regex := Alt (lits "youtube.com") (lits "youtu.be").

(** [https?://\S+] *)
Definition url_pattern : regex :=
  Cat (lits "http") (Cat (Opt (Lit "s")) (Cat (lits "://") (Plus nonspace))).

(** [(https?://(www\.)?(youtube\.com/watch\?v=|youtu\.be/)[\w-]+)] *)
Definition youtube_url_pattern : regex :=
  Cat (lits "http") (Cat (Opt (Lit "s")) (Cat (lits "://")
    (Cat (Opt (lits "www."))
      (Cat (Alt (lits "youtube.com/watch?v=") (lits "youtu.be/"))
           (Plus word_or_dash))))).

(** *** Notions used to reason about the matcher *)

(** The text starts with the literal run [pat]. *)
Fixpoint starts (ic : bool) (pat s : string) : bool :=
  match pat, s with
  | "", _ => true
  | String a pat', String b s' => lit_ok ic a b && starts ic pat' s'
  | String _ _, "" => false
  end.

(** The character before the position reached after [pat]. *)
Fixpoint consumed (pat : string) (prev : option ascii) (s : string) : option ascii :=
  match pat, s with
  | String _ pat', String b s' => consumed pat' (Some b) s'
  | _, _ => prev
  end.

Definition some {A} (o : option A) : bool :=
  match o with
  | Some _ => true
  | None => false
  end.

End Re.

(** ** Results, the world outside the program, and the state *)

(** The outcome of a Python call: a value, or an exception carrying the
    message that [str(e)] gives. *)
Inductive result (A : Type) : Type :=
  | Ret (a : A)
  | Raise (msg : string).
Arguments Ret {A} a.
Arguments Raise {A} msg.

(** What [extractall] leaves in the scratch directory; the order of the
    children is the order in which [os.scandir] lists them. *)
#[warnings="-register-all"] Inductive tree : Type :=
  | TFile (name : string) (content : string)
  | TDir (name : string) (children : list tree).

(** A path of the file system holds a regular file or a directory. *)
Inductive entry : Type :=
  | EFile (content : string)
  | EDir (children : list tree).

(** A cell of a [DataFrame] and the text [str] gives for it. *)
Inductive value : Type :=
  | VInt (z : Z)
  | VFloat (repr : string)
  | VStr (s : string)
  | VBool (b : bool)
  | VNaN.

Definition py_str (v : value) : string :=
  match v with
  | VInt z => NilEmpty.string_of_int (Z.to_int z)
  | VFloat repr => repr
  | VStr s => s
  | VBool true => "True"
  | VBool false => "False"
  | VNaN => "nan"
  end.

(** A [DataFrame]: the columns in order, each with its values by row.
    [read_csv] renames repeated header names, so a name selects one column. *)
Record DataFrame : Type := { columns : list (string * list value) }.

(** [name in df.columns] *)
Definition has_column (df : DataFrame) (name : string) : bool :=
  existsb (fun col => String.eqb (fst col) name) (columns df).

(** [df[name]] for a name that is a column *)
Definition column (df : DataFrame) (name : string) : list value :=
  match find (fun col => String.eqb (fst col) name) (columns df) with
  | Some col => snd col
  | None => []
  end.

(** [series.iloc[0]] *)
Definition iloc0 (series : list value) : result value :=
  match series with
  | v :: _ => Ret v
  | [] => Raise "single positional indexer is out-of-bounds"
  end.

(** [df.head(10)] *)
Definition head10 (df : DataFrame) : DataFrame :=
  {| columns := map (fun col => (fst col, firstn 10 (snd col))) (columns df) |}.

(** The services the program calls and the configuration it reads. *)
Record Env : Type := {
  (** [os.environ.get("OPENAI_API_KEY")], read once at import *)
  openai_api_key : option string;
  (** [OpenAI(api_key=...).chat.completions.create(...)] for a user
      content, up to [response.choices[0].message.content] *)
  chat_completion : string -> result string;
  (** [requests.get(url).text] *)
  requests_get : string -> result string;
  (** [BeautifulSoup(text, 'html.parser').get_text()] *)
  soup_get_text : string -> result string;
  (** [YouTube(url)], then [.title] and [.description] *)
  youtube_metadata : string -> result (string * string);
  (** [zipfile.is_zipfile] on the bytes of a file *)
  zip_signature : string -> bool;
  (** [ZipFile(path, 'r').extractall(dir)] on the bytes of the archive *)
  zip_extract : string -> result (list tree);
  (** [pd.read_csv] on the bytes of a file *)
  read_csv : string -> result DataFrame;
  (** [DataFrame.to_string] *)
  to_string : DataFrame -> string;
  (** [tempfile.gettempdir()] *)
  tempdir : string;
  (** the random choices of [tempfile]: name number, position, choice *)
  random_choice : nat -> nat -> nat;
  (** [tempfile.TMP_MAX] *)
  TMP_MAX : nat
}.

(** The five handlers of the router. *)
Inductive Handler : Type := CSV | PDF | YouTube | Webpage | General.

(** The file system, the number of temporary names drawn so far, and the
    handlers entered so far.  The log is an observation device: the Python
    code has no counterpart for it and no definition below reads it. *)
Record State : Type := {
  fs : gmap string entry;
  drawn : nat;
  log : list Handler
}.

Definition set_fs (f : gmap string entry -> gmap string entry) (st : State) : State :=
  {| fs := f (fs st); drawn := drawn st; log := log st |}.

(** *** The monad of state and exceptions *)

Definition M (A : Type) : Type := State -> result A * State.

Definition ret {A} (a : A) : M A := fun st => (Ret a, st).
Definition lift {A} (r : result A) : M A := fun st => (r, st).

Definition bind {A B} (m : M A) (f : A -> M B) : M B :=
  fun st =>
    match m st with
    | (Ret a, st') => f a st'
    | (Raise msg, st') => (Raise msg, st')
    end.

(** [try: m except Exception as e: h(str(e))] *)
Definition try_except {A} (m : M A) (h : string -> M A) : M A :=
  fun st =>
    match m st with
    | (Ret a, st') => (Ret a, st')
    | (Raise msg, st') => h msg st'
    end.

Notation "'let*' x := m 'in' k" := (bind m (fun x => k))
  (at level 10, x name, m at level 100, k at level 200).
Notation "'do' m 'then' k" := (bind m (fun _ => k))
  (at level 10, m at level 100, k at level 200).

(** The state once the handler [h] has been entered. *)
Definition after_entering (h : Handler) (st : State) : State :=
  {| fs := fs st; drawn := drawn st; log := (log st ++ [h])%list |}.

Definition entered (h : Handler) : M unit :=
  fun st => (Ret tt, after_entering h st).

(** ** The operating system: [os], [os.path], [tempfile], [zipfile] *)

(** A path is a text without the NUL character.  The messages of the
    errors show a path between apostrophes, which is how Python shows one
    that holds no apostrophe, backslash or control character. *)

Module OS.

(** [os.path.join(a, b)] *)
Definition path_join (a b : string) : string :=
  if Str.startswith b "/" then b
  else if String.eqb a "" || Str.endswith a "/" then a ++ b
  else a ++ "/" ++ b.

(** [os.path.exists(p)] *)
Definition path_exists (p : string) : M bool :=
  fun st => (Ret (bool_decide (is_Some (fs st !! p))), st).

(** [os.remove(p)] *)
Definition remove (p : string) : M unit :=
  fun st =>
    match fs st !! p with
    | Some (EFile _) => (Ret tt, set_fs (delete p) st)
    | Some (EDir _) => (Raise ("[Errno 21] Is a directory: '" ++ p ++ "'"), st)
    | None => (Raise ("[Errno 2] No such file or directory: '" ++ p ++ "'"), st)
    end.

(** The characters of a temporary name, [_RandomNameSequence.characters]. *)
Definition characters : list ascii :=
  list_ascii_of_string "abcdefghijklmnopqrstuvwxyz0123456789_".

Definition choose (n : nat) : ascii :=
  nth (n mod 37) characters "a"%char.

(** The [i]-th name of the sequence: eight random characters. *)
Definition random_name (env : Env) (i : nat) : string :=
  string_of_list_ascii (map (fun j => choose (random_choice env i j)) (seq 0 8)).

(** [_mkstemp_inner] and [mkdtemp]: names are drawn until one is free, at
    most [TMP_MAX] times. *)
Fixpoint fresh_path (env : Env) (tries : nat) (i : nat)
    (files : gmap string entry) : option (string * nat) :=
  match tries with
  | O => None
  | S tries' =>
      let p := path_join (tempdir env) ("tmp" ++ random_name env i) in
      match files !! p with
      | None => Some (p, S i)
      | Some _ => fresh_path env tries' (S i) files
      end
  end.

Definition create_temp (env : Env) (e : entry) (what : string) : M string :=
  fun st =>
    match fresh_path env (TMP_MAX env) (drawn st) (fs st) with
    | Some (p, i) =>
        (Ret p, {| fs := <[p := e]> (fs st); drawn := i; log := log st |})
    | None =>
        (Raise ("[Errno 17] No usable temporary " ++ what ++ " name found"),
         {| fs := fs st; drawn := drawn st + TMP_MAX env; log := log st |})
    end.

(** [tempfile.NamedTemporaryFile(delete=False)], giving [temp.name] *)
Definition NamedTemporaryFile (env : Env) : M string :=
  create_temp env (EFile "") "file".

(** [tempfile.mkdtemp()] *)
Definition mkdtemp (env : Env) : M string :=
  create_temp env (EDir []) "directory".

(** [file.save(path)] of an upload: the bytes are written to the path. *)
Definition save (content : string) (p : string) : M unit :=
  fun st => (Ret tt, set_fs (insert p (EFile content)) st).

(** [zipfile.is_zipfile(path)]: false for a path that is not a file. *)
Definition is_zipfile (env : Env) (p : string) : M bool :=
  fun st =>
    match fs st !! p with
    | Some (EFile c) => (Ret (zip_signature env c), st)
    | _ => (Ret false, st)
    end.

(** [with zipfile.ZipFile(path, 'r') as z: z.extractall(dir)].  When the
    archive cannot be read the directory is left as it was. *)
Definition extractall (env : Env) (p dir : string) : M unit :=
  fun st =>
    match fs st !! p with
    | Some (EFile c) =>
        match zip_extract env c with
        | Ret ts => (Ret tt, set_fs (insert dir (EDir ts)) st)
        | Raise msg => (Raise msg, st)
        end
    | Some (EDir _) => (Raise ("[Errno 21] Is a directory: '" ++ p ++ "'"), st)
    | None => (Raise ("[Errno 2] No such file or directory: '" ++ p ++ "'"), st)
    end.

Definition dirnames (ts : list tree) : list string :=
  flat_map (fun t => match t with TDir n _ => [n] | TFile _ _ => [] end) ts.

(** The regular files of a directory, each name with the file's bytes, so
    that reading a listed path needs no second lookup. *)
Definition filenames (ts : list tree) : list (string * string) :=
  flat_map (fun t => match t with TFile n c => [(n, c)] | TDir _ _ => [] end) ts.

(** [os.walk] below a directory [root], top-down: the triple of a directory
    comes before the triples of its sub-directories. *)
Fixpoint walk_tree (root : string) (t : tree)
    : list (string * list string * list (string * string)) :=
  match t with
  | TFile _ _ => []
  | TDir n ts =>
      let here := path_join root n in
      (here, dirnames ts, filenames ts) :: flat_map (walk_tree here) ts
  end.

(** [os.walk(top)]; a [top] that is no directory yields nothing. *)
Definition walk (top : string) : M (list (string * list string * list (string * string))) :=
  fun st =>
    match fs st !! top with
    | Some (EDir ts) =>
        (Ret ((top, dirnames ts, filenames ts) :: flat_map (walk_tree top) ts), st)
    | _ => (Ret [], st)
    end.

(** [pd.read_csv(path)] *)
Definition pd_read_csv (env : Env) (p : string) : M DataFrame :=
  fun st =>
    match fs st !! p with
    | Some (EFile c) => (read_csv env c, st)
    | Some (EDir _) => (Raise ("[Errno 21] Is a directory: '" ++ p ++ "'"), st)
    | None => (Raise ("[Errno 2] No such file or directory: '" ++ p ++ "'"), st)
    end.

End OS.

(** ** The handlers and the router of [api/index.py] *)

(** Python truth of [openai_api_key]: set and not the empty text. *)
Definition key_configured (env : Env) : bool :=
  match openai_api_key env with
  | Some k => negb (String.eqb k "")
  | None => false
  end.

(** [process_general_question(question)] *)
Definition process_general_question (env : Env) (question : string) : M string :=
  do entered General then
  try_except
    (if negb (key_configured env) then
       ret "API key not configured. Please set the OPENAI_API_KEY environment variable."
     else
       let* content := lift (chat_completion env question) in
       ret (Str.strip content))
    (fun e => ret ("Error using OpenAI API: " ++ e)).

(** The loop over [os.walk(temp_dir)] that fills [csv_files]. *)
Definition collect_csv (walked : list (string * list string * list (string * string)))
    : list (string * string) :=
  flat_map (fun '(root, _, files) =>
    flat_map (fun '(file, content) =>
      if Str.endswith file ".csv" then [(OS.path_join root file, content)] else [])
      files) walked.

(** [process_csv_question(question, file_path)] *)
Definition process_csv_question (env : Env) (question file_path : string) : M string :=
  do entered CSV then
  let* is_zip := (if Str.endswith file_path ".zip" then ret true
                  else OS.is_zipfile env file_path) in
  if is_zip then
    let* temp_dir := OS.mkdtemp env in
    do OS.extractall env file_path temp_dir then
    let* walked := OS.walk temp_dir in
    let csv_files := collect_csv walked in
    match csv_files with
    | [] => ret "No CSV files found in the ZIP archive."
    | (csv_file_path, csv_bytes) :: _ =>
        (* pd.read_csv(csv_file_path): the bytes listed with that path *)
        let* df := lift (read_csv env csv_bytes) in
        if Str.contains (Str.lower question) "answer column" then
          if has_column df "answer" then
            let* v := lift (iloc0 (column df "answer")) in
            ret (py_str v)
          else ret "No 'answer' column found in the CSV."
        else
          let csv_content := to_string env (head10 df) in
          process_general_question env
            (question ++ Str.nl ++ Str.nl ++ "CSV content (first 10 rows):"
             ++ Str.nl ++ csv_content)
    end
  else if Str.endswith file_path ".csv" then
    let* df := OS.pd_read_csv env file_path in
    if Str.contains (Str.lower question) "answer column" then
      if has_column df "answer" then
        let* v := lift (iloc0 (column df "answer")) in
        ret (py_str v)
      else ret "No 'answer' column found in the CSV."
    else
      let csv_content := to_string env (head10 df) in
      process_general_question env
        (question ++ Str.nl ++ Str.nl ++ "CSV content (first 10 rows):"
         ++ Str.nl ++ csv_content)
  else ret "Unsupported file format.".

(** [process_pdf_question(question, file_path)] *)
Definition process_pdf_question (question file_path : string) : M string :=
  do entered PDF then
  ret "PDF processing requires additional libraries. Please extract the relevant information from the PDF and include it in your question.".

(** [process_youtube_question(question)] *)
Definition process_youtube_question (env : Env) (question : string) : M string :=
  do entered YouTube then
  match Re.findall Re.youtube_url_pattern question with
  | [] => ret "No YouTube URL found in the question."
  | youtube_url :: _ =>
      try_except
        (let* yt := lift (youtube_metadata env youtube_url) in
         let video_info := "Title: " ++ fst yt ++ Str.nl ++ "Description: " ++ snd yt in
         process_general_question env
           (question ++ Str.nl ++ Str.nl ++ "Video information:" ++ Str.nl ++ video_info))
        (fun e => ret ("Error processing YouTube video: " ++ e))
  end.

(** [process_webpage_question(question)] *)
Definition process_webpage_question (env : Env) (question : string) : M string :=
  do entered Webpage then
  match Re.findall Re.url_pattern question with
  | [] => ret "No URL found in the question."
  | url :: _ =>
      try_except
        (let* response_text := lift (requests_get env url) in
         let* text := lift (soup_get_text env response_text) in
         let page_text := Str.take 5000 text in
         process_general_question env
           (question ++ Str.nl ++ Str.nl ++ "Webpage content (excerpt):" ++ Str.nl ++ page_text))
        (fun e => ret ("Error processing webpage: " ++ e))
  end.

(** Python truth of the optional [file_path]: given and not empty. *)
Definition path_given (file_path : option string) : bool :=
  match file_path with
  | Some p => negb (String.eqb p "")
  | None => false
  end.

Definition the_path (file_path : option string) : string :=
  match file_path with
  | Some p => p
  | None => ""
  end.

(** [process_assignment_question(question, file_path=None)] *)
Definition process_assignment_question (env : Env) (question : string)
    (file_path : option string) : M string :=
  if path_given file_path
     && (Re.search true (Re.ext_pattern ".zip") question
         || Re.search true (Re.ext_pattern ".csv") question) then
    process_csv_question env question (the_path file_path)
  else if path_given file_path && Re.search true (Re.ext_pattern ".pdf") question then
    process_pdf_question question (the_path file_path)
  else if Re.search true Re.youtube_pattern question then
    process_youtube_question env question
  else if Re.search true Re.url_pattern question then
    process_webpage_question env question
  else
    process_general_question env question.

(** ** The HTTP endpoint *)

(** The form of a POST request: the [question] field if present, and the
    [file] upload if present, as its file name and bytes. *)
Record Request : Type := {
  form_question : option string;
  upload : option (string * string)
}.

(** [jsonify({"error": msg})] and [jsonify({"answer": text})] *)
Inductive Body : Type :=
  | JsonError (msg : string)
  | JsonAnswer (text : string).

Record Response : Type := { status : nat; body : Body }.

(** The [try] block of [process_question]. *)
Definition process_question_body (env : Env) (req : Request) : M Response :=
  let question := match form_question req with Some q => q | None => "" end in
  if String.eqb question "" then
    ret {| status := 400; body := JsonError "No question provided" |}
  else
    let* attached_file :=
      match upload req with
      | Some (filename, content) =>
          if negb (String.eqb filename "") then
            let* temp_name := OS.NamedTemporaryFile env in
            do OS.save content temp_name then
            ret (Some temp_name)
          else ret None
      | None => ret None
      end in
    let* answer := process_assignment_question env question attached_file in
    do (if path_given attached_file then
          let* there := OS.path_exists (the_path attached_file) in
          if there then OS.remove (the_path attached_file) else ret tt
        else ret tt) then
    ret {| status := 200; body := JsonAnswer answer |}.

(** [process_question()], the handler of [POST /]: a response always. *)
Definition process_question (env : Env) (req : Request) (st : State) : Response * State :=
  match process_question_body env req st with
  | (Ret resp, st') => (resp, st')
  | (Raise e, st') => ({| status := 500; body := JsonError e |}, st')
  end.

(** ** The dispatch rules in the words of the specification *)

Module Rules.

(** Some suffix of the text, that is some position in it, satisfies [P]. *)
Fixpoint anywhere (P : string -> bool) (s : string) : bool :=
  P s ||
  match s with
  | "" => false
  | String _ s' => anywhere P s'
  end.

(** The character [n] places into the text is there and satisfies [p]. *)
Definition char_at (p : ascii -> bool) (n : nat) (s : string) : bool :=
  match Str.drop n s with
  | String c _ => p c
  | "" => false
  end.

(** "The question mentions [.zip]": the extension occurs, in any case, and
    is not continued by a letter, a digit or an underscore. *)
Definition mentions (ext question : string) : bool :=
  anywhere (fun x => Str.startswith (Str.lower x) ext
                     && negb (char_at Char.is_word (String.length ext) x)) question.

(** "The question contains [youtube.com]", in any case. *)
Definition contains_ci (sub question : string) : bool :=
  Str.contains (Str.lower question) sub.

(** "The question contains an http(s):// URL": the scheme, in any case,
    followed by at least one character that is not white space. *)
Definition has_url (question : string) : bool :=
  anywhere (fun x =>
    (Str.startswith (Str.lower x) "http://" && char_at Re.nonspace 7 x)
    || (Str.startswith (Str.lower x) "https://" && char_at Re.nonspace 8 x)) question.

(** First match wins. *)
Definition route (question : string) (file_path : option string) : Handler :=
  if path_given file_path
     && (mentions ".zip" question || mentions ".csv" question) then CSV
  else if path_given file_path && mentions ".pdf" question then PDF
  else if contains_ci "youtube.com" question || contains_ci "youtu.be" question then YouTube
  else if has_url question then Webpage
  else General.

(** The handler functions by name. *)
Definition run (env : Env) (h : Handler) (question : string)
    (file_path : option string) : M string :=
  match h with
  | CSV => process_csv_question env question (the_path file_path)
  | PDF => process_pdf_question question (the_path file_path)
  | YouTube => process_youtube_question env question
  | Webpage => process_webpage_question env question
  | General => process_general_question env question
  end.

End Rules.

(** ** Notions of the CSV handler's contract *)

(** Some regular file of the tree, at any depth, has a name ending in
    [.csv]. *)
Fixpoint has_csv (t : tree) : bool :=
  match t with
  | TFile name _ => Str.endswith name ".csv"
  | TDir _ children => existsb has_csv children
  end.

(** A free temporary name is found within [TMP_MAX] draws. *)
Definition temp_available (env : Env) (st : State) : Prop :=
  is_Some (OS.fresh_path env (TMP_MAX env) (drawn st) (fs st)).

(** The file at [file_path] is a ZIP archive for the handler: by its name or
    by its bytes. *)
Definition zip_for_handler (env : Env) (file_path bytes : string) : Prop :=
  Str.endswith file_path ".zip" = true \/ zip_signature env bytes = true.

(** [csv_loaded env st file_path df]: the CSV handler, started in [st] on
    [file_path], loads the table [df], either from the first CSV file of
    the extracted archive or from the file itself. *)
Inductive csv_loaded (env : Env) (st : State) (file_path : string) (df : DataFrame) : Prop :=
  | loaded_from_zip bytes dir i ts csv_path csv_bytes others :
      fs st !! file_path = Some (EFile bytes) ->
      zip_for_handler env file_path bytes ->
      OS.fresh_path env (TMP_MAX env) (drawn st) (fs st) = Some (dir, i) ->
      zip_extract env bytes = Ret ts ->
      collect_csv ((dir, OS.dirnames ts, OS.filenames ts) :: flat_map (OS.walk_tree dir) ts)
        = (csv_path, csv_bytes) :: others ->
      read_csv env csv_bytes = Ret df ->
      csv_loaded env st file_path df
  | loaded_directly bytes :
      fs st !! file_path = Some (EFile bytes) ->
      Str.endswith file_path ".zip" = false ->
      zip_signature env bytes = false ->
      Str.endswith file_path ".csv" = true ->
      read_csv env bytes = Ret df ->
      csv_loaded env st file_path df.

(** What both branches of [process_csv_question] do with a loaded table
    (lines 115 to 126 and, word for word, lines 133 to 140). *)
Definition table_answer (env : Env) (question : string) (df : DataFrame) : M string :=
  if Str.contains (Str.lower question) "answer column" then
    if has_column df "answer" then
      let* v := lift (iloc0 (column df "answer")) in
      ret (py_str v)
    else ret "No 'answer' column found in the CSV."
  else
    let csv_content := to_string env (head10 df) in
    process_general_question env
      (question ++ Str.nl ++ Str.nl ++ "CSV content (first 10 rows):"
       ++ Str.nl ++ csv_content).

(** A computation that enters no handler. *)
Definition keeps_log {A} (m : M A) : Prop :=
  forall st, log (snd (m st)) = log st.

(** A computation that enters no handler, or only the General one. *)
Definition may_delegate {A} (m : M A) : Prop :=
  forall st, log (snd (m st)) = log st \/ log (snd (m st)) = (log st ++ [General])%list.

(** ** Worlds used as concrete instances *)

Module Example.

(** No credential, nothing reachable; ZIP archives are recognised by their
    first two bytes and hold one text file, or one CSV file that is a
    header line without rows. *)
Definition env : Env := {|
  openai_api_key := None;
  chat_completion := fun _ => Raise "Connection error.";
  requests_get := fun _ => Raise "Connection refused";
  soup_get_text := fun text => Ret text;
  youtube_metadata := fun _ => Raise "video unavailable";
  zip_signature := fun bytes => Str.startswith bytes "PK";
  zip_extract := fun bytes =>
    if String.eqb bytes "PK-table" then Ret [TFile "table.csv" ("answer" ++ Str.nl)]
    else if Str.startswith bytes "PK" then Ret [TDir "notes" [TFile "readme.txt" "hello"]]
    else Raise "File is not a zip file";
  read_csv := fun bytes =>
    if String.eqb bytes ("answer" ++ Str.nl) then Ret {| columns := [("answer", [])] |}
    else Raise "No columns to parse from file";
  to_string := fun _ => "Empty DataFrame";
  tempdir := "/tmp";
  random_choice := fun i _ => i;
  TMP_MAX := 100
|}.

(** A world with a credential and a completion service that echoes. *)
Definition env_online : Env := {|
  openai_api_key := Some "sk-test";
  chat_completion := fun prompt => Ret (" 42 " ++ Str.nl);
  requests_get := fun url => Ret "<p>page</p>";
  soup_get_text := fun text => Raise "parser failure";
  youtube_metadata := fun _ => Ret ("title", "description");
  zip_signature := fun bytes => Str.startswith bytes "PK";
  zip_extract := fun bytes =>
    Ret [TDir "data" [TFile "table.csv" "answer,x"]; TFile "readme.txt" "hello"];
  read_csv := fun bytes =>
    if String.eqb bytes "answer,x"
    then Ret {| columns := [("answer", [VInt 7; VInt 8]); ("x", [VStr "a"; VStr "b"])] |}
    else Ret {| columns := [("x", [VStr "a"])] |};
  to_string := fun _ => "x";
  tempdir := "/tmp";
  random_choice := fun i _ => i;
  TMP_MAX := 100
|}.

(** A file system with one CSV file that has a header and no rows. *)
Definition st : State :=
  {| fs := {[ "data.csv" := EFile ("answer" ++ Str.nl) ]}; drawn := 0; log := [] |}.

Definition empty : State := {| fs := ∅; drawn := 0; log := [] |}.

(** A file system that holds an uploaded archive. *)
Definition st_zip : State :=
  {| fs := {[ "/srv/upload" := EFile "PK-archive" ]}; drawn := 0; log := [] |}.

(** Requests with an uploaded archive. *)
Definition req_notes : Request :=
  {| form_question := Some "How many rows are in data.zip?";
     upload := Some ("data.zip", "PK-archive") |}.

Definition req_table : Request :=
  {| form_question := Some "What is in the answer column of data.zip?";
     upload := Some ("data.zip", "PK-table") |}.

(** A request with an uploaded CSV file. *)
Definition req_csv : Request :=
  {| form_question := Some "What is the total of column b in data.csv?";
     upload := Some ("data.csv", "a,b" ++ Str.nl ++ "1,2" ++ Str.nl) |}.

End Example.

(** ** Notions for the properties of the handlers' texts *)

Module Text.

(** Every character of the text satisfies [p]. *)
Fixpoint all (p : ascii -> bool) (s : string) : bool :=
  match s with
  | "" => true
  | String c s' => p c && all p s'
  end.

(** The text is not empty and its first character satisfies [p]. *)
Definition first_is (p : ascii -> bool) (s : string) : bool :=
  match s with
  | "" => false
  | String c _ => p c
  end.

(** The text is not empty and its last character satisfies [p]. *)
Fixpoint last_is (p : ascii -> bool) (s : string) : bool :=
  match s with
  | "" => false
  | String c "" => p c
  | String _ s' => last_is p s'
  end.

End Text.

(** The same world with another completion service. *)
Definition with_chat (env : Env) (service : string -> result string) : Env :=
  {| openai_api_key := openai_api_key env;
     chat_completion := service;
     requests_get := requests_get env;
     soup_get_text := soup_get_text env;
     youtube_metadata := youtube_metadata env;
     zip_signature := zip_signature env;
     zip_extract := zip_extract env;
     read_csv := read_csv env;
     to_string := to_string env;
     tempdir := tempdir env;
     random_choice := random_choice env;
     TMP_MAX := TMP_MAX env |}.

(** ** Notions for the extraction of a URL *)

Module Scan.

(** The longest prefix of the text whose characters satisfy [p]. *)
Fixpoint run (p : ascii -> bool) (s : string) : string :=
  match s with
  | "" => ""
  | String c s' => if p c then String c (run p s') else ""
  end.

(** What follows that prefix. *)
Fixpoint after_run (p : ascii -> bool) (s : string) : string :=
  match s with
  | "" => ""
  | String c s' => if p c then after_run p s' else s
  end.

(** A URL starts here: the scheme in lower case and one more character that
    is not white space. *)
Definition url_here (x : string) : bool :=
  (Str.startswith x "http://" && Rules.char_at Re.nonspace 7 x)
  || (Str.startswith x "https://" && Rules.char_at Re.nonspace 8 x).

(** The part of [whole] before its suffix [rest]: what the matcher reports
    as the matched text. *)
Definition before (whole rest : string) : string :=
  Str.take (String.length whole - String.length rest) whole.

End Scan.

(** ** The texts of a pattern *)

Module Lang.

(** [matches ic r w]: the text [w] is one of the texts that the pattern [r]
    describes; [\b] describes the empty text (its condition on the
    neighbouring characters is left out here). *)
Inductive matches (ic : bool) : Re.regex -> string -> Prop :=
  | matches_eps : matches ic Re.Eps ""
  | matches_lit c b : Re.lit_ok ic c b = true -> matches ic (Re.Lit c) (String b "")
  | matches_class (p : ascii -> bool) b : p b = true -> matches ic (Re.Class p) (String b "")
  | matches_cat r1 r2 w1 w2 :
      matches ic r1 w1 -> matches ic r2 w2 -> matches ic (Re.Cat r1 r2) (w1 ++ w2)
  | matches_alt_left r1 r2 w : matches ic r1 w -> matches ic (Re.Alt r1 r2) w
  | matches_alt_right r1 r2 w : matches ic r2 w -> matches ic (Re.Alt r1 r2) w
  | matches_opt_none r : matches ic (Re.Opt r) ""
  | matches_opt_some r w : matches ic r w -> matches ic (Re.Opt r) w
  | matches_plus (p : ascii -> bool) w :
      Text.first_is p w = true -> Text.all p w = true -> matches ic (Re.Plus p) w
  | matches_boundary : matches ic Re.Boundary "".

End Lang.

(** ** Paths that error messages show as they are written *)

Module Path.



End Path.

(** ** Notions for the effects on the file system *)

(** A computation that leaves the files and the name counter alone. *)
Definition keeps_files {A} (m : M A) : Prop :=
  forall st, fs (snd (m st)) = fs st /\ drawn (snd (m st)) = drawn st.

(** The file system [after] is [before], or [before] with one new path
    that is a directory. *)
Definition scratch_only (before after : gmap string entry) : Prop :=
  after = before
  \/ exists dir ts, before !! dir = None /\ after = <[dir := EDir ts]> before.

(** Two computations that agree in every state. *)
Definition same {A} (m1 m2 : M A) : Prop := forall st, m1 st = m2 st.

(** ** Further concrete instances *)

Module Scenario.

(** A world with a credential whose completion service fails. *)
Definition env_failing : Env :=
  with_chat Example.env_online (fun _ => Raise "Rate limit reached").

(** A world with a credential where pages parse and the videos are private. *)
Definition env_web : Env := {|
  openai_api_key := Some "sk-test";
  chat_completion := fun prompt => Ret (" 42 " ++ Str.nl);
  requests_get := fun url => Ret "<p>page</p>";
  soup_get_text := fun text => Ret "page";
  youtube_metadata := fun _ => Raise "video is private";
  zip_signature := fun bytes => Str.startswith bytes "PK";
  zip_extract := fun bytes =>
    Ret [TDir "old" [TFile "first.csv" "x"]; TFile "notes.txt" "hello";
         TFile "table.csv" "answer,x"];
  read_csv := fun bytes =>
    if String.eqb bytes "answer,x"
    then Ret {| columns := [("answer", [VInt 7; VInt 8]); ("x", [VStr "a"; VStr "b"])] |}
    else Ret {| columns := [("x", [VStr "a"])] |};
  to_string := fun _ => "x";
  tempdir := "/tmp";
  random_choice := fun i _ => i;
  TMP_MAX := 100
|}.

(** Requests without a file, with a file next to a plain question, and with
    an archive that holds a table. *)
Definition req_plain : Request :=
  {| form_question := Some "What is 6 x 7?"; upload := None |}.

Definition req_unused_file : Request :=
  {| form_question := Some "What is 6 x 7?"; upload := Some ("notes.txt", "hello") |}.

(** A request with an uploaded PDF file. *)
Definition req_pdf : Request :=
  {| form_question := Some "What is the title of report.pdf?";
     upload := Some ("report.pdf", "%PDF-1.7") |}.

End Scenario.

(** ** Facts about the matcher *)

Module ReFacts.

Import Re.

Lemma go_lits {A} ic pat prev s (k : option ascii -> string -> option A) :
  go ic (lits pat) prev s k =
  if starts ic pat s then k (consumed pat prev s) (Str.drop (String.length pat) s)
  else None.
Proof.
  revert prev s. induction pat as [|a pat IH]; intros prev s; simpl.
  - by destruct s.
  - destruct s as [|b s]; simpl; [done|].
    destruct (lit_ok ic a b); simpl; [apply IH | done].
Qed.

Lemma go_cat {A} ic r1 r2 prev s (k : option ascii -> string -> option A) :
  go ic (Cat r1 r2) prev s k = go ic r1 prev s (fun prev' s' => go ic r2 prev' s' k).
Proof. done. Qed.

Lemma go_alt {A} ic r1 r2 prev s (k : option ascii -> string -> option A) :
  go ic (Alt r1 r2) prev s k =
  match go ic r1 prev s k with Some a => Some a | None => go ic r2 prev s k end.
Proof. done. Qed.

Lemma go_opt {A} ic r prev s (k : option ascii -> string -> option A) :
  go ic (Opt r) prev s k =
  match go ic r prev s k with Some a => Some a | None => k prev s end.
Proof. done. Qed.

Lemma starts_lower pat s :
  Str.lower pat = pat ->
  starts true pat s = Str.startswith (Str.lower s) pat.
Proof.
  revert s. induction pat as [|a pat IH]; intros s Hpat; simpl.
  - by destruct s.
  - destruct s as [|b s]; simpl; [done|].
    simpl in Hpat. injection Hpat as Ha Hp.
    unfold lit_ok, Char.eqb_ci. rewrite Ha, (IH s Hp). done.
Qed.

(** After a run that ends in a word character the position before is a
    word character too, whatever the case of the text. *)
Lemma consumed_word pat prev s c :
  starts true pat s = true ->
  Str.drop (String.length pat - 1) pat = String c "" ->
  (forall b, Char.eqb_ci c b = true -> Char.is_word b = true) ->
  word_opt (consumed pat prev s) = true.
Proof.
  revert prev s. induction pat as [|a pat IH]; intros prev s Hs Hc Hw.
  - simpl in Hc. discriminate.
  - destruct s as [|b s]; simpl in Hs; [done|].
    apply andb_prop in Hs as [Hab Hs]. simpl.
    destruct pat as [|a' pat'].
    + simpl in Hc. injection Hc as ->. simpl. by apply Hw.
    + apply (IH (Some b) s Hs); [|done].
      simpl in Hc |- *. by rewrite Nat.sub_0_r.
Qed.

Lemma eqb_ci_word (c : ascii) :
  Char.is_word c = true -> Char.lower c = c ->
  forall b, Char.eqb_ci c b = true -> Char.is_word b = true.
Proof.
  intros Hw Hl b Hb. unfold Char.eqb_ci in Hb. rewrite Hl in Hb.
  apply Ascii.eqb_eq in Hb. subst c. revert Hw.
  destruct b as [[] [] [] [] [] [] [] []]; vm_compute; done.
Qed.

Lemma search_anywhere ic r (P : string -> bool) :
  (forall prev s, some (match_here ic r prev s) = P s) ->
  forall s, search ic r s = Rules.anywhere P s.
Proof.
  intros HP s. unfold search.
  change (some (search_from ic r None s) = Rules.anywhere P s).
  generalize (@None ascii) as prev.
  induction s as [|c s IH]; intros prev; simpl;
    rewrite <- (HP prev); destruct (match_here ic r prev _); simpl; done.
Qed.

Lemma anywhere_ext P Q s :
  (forall x, P x = Q x) -> Rules.anywhere P s = Rules.anywhere Q s.
Proof.
  intros H. induction s as [|c s IH]; simpl; rewrite H; [done|]. by rewrite IH.
Qed.

Lemma anywhere_orb P Q s :
  Rules.anywhere (fun x => P x || Q x) s = Rules.anywhere P s || Rules.anywhere Q s.
Proof.
  induction s as [|c s IH]; simpl.
  - by rewrite !orb_false_r.
  - rewrite IH. destruct (P _), (Q _), (Rules.anywhere P s); done.
Qed.

Lemma contains_anywhere sub s :
  Str.contains (Str.lower s) sub
  = Rules.anywhere (fun x => Str.startswith (Str.lower x) sub) s.
Proof. induction s as [|c s IH]; simpl; [done|]. by rewrite IH. Qed.

Lemma plus_some {A} p s (k : option ascii -> string -> option A) :
  (forall prev x, some (k prev x) = true) ->
  some (plus p s k) = Rules.char_at p 0 s.
Proof.
  intros Hk. destruct s as [|c s]; simpl; [done|].
  unfold Rules.char_at; simpl. destruct (p c); [|done].
  destruct (plus p s k); [done|]. apply Hk.
Qed.

Lemma drop_drop n m s : Str.drop n (Str.drop m s) = Str.drop (m + n) s.
Proof.
  revert s. induction m as [|m IH]; intros s; simpl.
  - by destruct s.
  - destruct s as [|c s]; [by destruct n|]. apply IH.
Qed.

Lemma char_at_drop p n m s :
  Rules.char_at p n (Str.drop m s) = Rules.char_at p (m + n) s.
Proof. unfold Rules.char_at. by rewrite drop_drop. Qed.

Lemma starts_app ic a b s :
  starts ic (a ++ b) s = starts ic a s && starts ic b (Str.drop (String.length a) s).
Proof.
  revert s. induction a as [|c a IH]; intros s; simpl.
  - by destruct s.
  - destruct s as [|d s]; [done|]. rewrite IH. by rewrite andb_assoc.
Qed.

(** [\.zip\b] and its siblings against the wording of the rule. *)
Lemma search_ext ext c q :
  Str.lower ext = ext ->
  Str.drop (String.length ext - 1) ext = String c "" ->
  Char.is_word c = true -> Char.lower c = c ->
  search true (ext_pattern ext) q = Rules.mentions ext q.
Proof.
  intros Hlow Hlast Hw Hl. unfold Rules.mentions. apply search_anywhere.
  intros prev s. unfold match_here, ext_pattern. simpl go.
  rewrite go_lits, (starts_lower _ _ Hlow).
  destruct (Str.startswith (Str.lower s) ext) eqn:Hs; [|done].
  rewrite <- (starts_lower _ _ Hlow) in Hs.
  rewrite (consumed_word ext prev s c Hs Hlast (eqb_ci_word c Hw Hl)).
  unfold Rules.char_at. simpl.
  by destruct (Str.drop (String.length ext) s) as [|b x]; simpl; [|destruct (Char.is_word b)].
Qed.

(** [youtube\.com|youtu\.be] against the wording of the rule. *)
Lemma search_youtube q :
  search true youtube_pattern q
  = Rules.contains_ci "youtube.com" q || Rules.contains_ci "youtu.be" q.
Proof.
  unfold Rules.contains_ci. rewrite !contains_anywhere, <- anywhere_orb.
  apply search_anywhere. intros prev s.
  unfold match_here, youtube_pattern.
  rewrite go_alt, !go_lits, !starts_lower by done.
  by destruct (Str.startswith (Str.lower s) "youtube.com"),
            (Str.startswith (Str.lower s) "youtu.be").
Qed.

Lemma some_or {A} (o1 o2 : option A) :
  some (match o1 with Some a => Some a | None => o2 end) = some o1 || some o2.
Proof. by destruct o1. Qed.

(** [://\S+] at a position. *)
Lemma go_sep {A} prev x (k : option ascii -> string -> option A) :
  (forall p y, some (k p y) = true) ->
  some (go true (Cat (lits "://") (Plus nonspace)) prev x k)
  = starts true "://" x && Rules.char_at nonspace 3 x.
Proof.
  intros Hk. rewrite go_cat, go_lits.
  destruct (starts true "://" x); [|done].
  cbn [go andb]. rewrite (plus_some _ _ k Hk).
  by rewrite char_at_drop.
Qed.

(** [s?://\S+] at a position. *)
Lemma go_tail {A} prev x (k : option ascii -> string -> option A) :
  (forall p y, some (k p y) = true) ->
  some (go true (Cat (Opt (Lit "s")) (Cat (lits "://") (Plus nonspace))) prev x k)
  = (starts true "://" x && Rules.char_at nonspace 3 x)
    || (starts true "s" x && starts true "://" (Str.drop 1 x)
        && Rules.char_at nonspace 4 x).
Proof.
  intros Hk. rewrite go_cat, go_opt, some_or, (go_sep prev x k Hk).
  rewrite orb_comm. f_equal.
  destruct x as [|b y]; [done|].
  change (starts true "s" (String b y)) with (lit_ok true "s" b && true).
  change (Str.drop 1 (String b y)) with y.
  change (Rules.char_at nonspace 4 (String b y)) with (Rules.char_at nonspace 3 y).
  change (go true (Lit "s") prev (String b y) ?K)
    with (if lit_ok true "s" b then K (Some b) y else None).
  destruct (lit_ok true "s" b); [|done].
  by rewrite (go_sep (Some b) y k Hk).
Qed.

(** [https?://\S+] against the wording of the rule. *)
Lemma search_url q : search true url_pattern q = Rules.has_url q.
Proof.
  unfold Rules.has_url. apply search_anywhere. intros prev s.
  unfold match_here, url_pattern.
  rewrite go_cat, go_lits.
  rewrite <- !starts_lower by done.
  change "http://" with ("http" ++ "://").
  change "https://" with ("http" ++ "s" ++ "://").
  rewrite !starts_app.
  destruct (starts true "http" s); [|done].
  rewrite go_tail by done.
  rewrite !char_at_drop, !drop_drop. reflexivity.
Qed.

End ReFacts.


(** ** What the worded rules mean *)

Module RulesFacts.

Lemma startswith_iff s p :
  Str.startswith s p = true <-> exists rest, s = p ++ rest.
Proof.
  revert s. induction p as [|a p IH]; intros s.
  - split; [by exists s | by destruct s].
  - destruct s as [|b s]; simpl; [split; [done | by intros [rest Hrest]]|].
    rewrite andb_true_iff, Ascii.eqb_eq, IH. split.
    + intros [-> [rest ->]]. by exists rest.
    + intros [rest [= -> ->]]. split; [done | by exists rest].
Qed.

Lemma anywhere_iff P s :
  Rules.anywhere P s = true <-> exists pre x, s = pre ++ x /\ P x = true.
Proof.
  induction s as [|c s IH]; simpl.
  - rewrite orb_false_r. split.
    + intros H. by exists "", "".
    + intros (pre & x & Hs & Hx). destruct pre; simpl in Hs; [by rewrite Hs | done].
  - rewrite orb_true_iff, IH. split.
    + intros [H | (pre & x & -> & Hx)].
      * by exists "", (String c s).
      * by exists (String c pre), x.
    + intros (pre & x & Hs & Hx). destruct pre as [|d pre]; simpl in Hs.
      * left. by rewrite Hs.
      * right. injection Hs as -> ->. by exists pre, x.
Qed.

(** [sub in s], by its meaning. *)
Lemma contains_iff s sub :
  Str.contains s sub = true <-> exists pre post, s = pre ++ sub ++ post.
Proof.
  assert (Hc : Str.contains s sub = Rules.anywhere (fun x => Str.startswith x sub) s).
  { induction s as [|c s IH]; simpl; [done|]. by rewrite IH. }
  rewrite Hc, anywhere_iff. split.
  - intros (pre & x & -> & Hx). apply startswith_iff in Hx as [post ->]. by exists pre, post.
  - intros (pre & post & ->). exists pre, (sub ++ post). split; [done|].
    apply startswith_iff. by exists post.
Qed.

(** [s.endswith(suf)], by its meaning. *)
Lemma endswith_iff s suf :
  Str.endswith s suf = true <-> exists pre, s = pre ++ suf.
Proof.
  induction s as [|c s IH].
  - destruct suf; simpl; split; try done.
    + by exists "".
    + intros [pre H]. by destruct pre.
  - change (Str.endswith (String c s) suf)
      with (String.eqb (String c s) suf || Str.endswith s suf).
    rewrite orb_true_iff, String.eqb_eq, IH. split.
    + intros [<- | [pre ->]]; [by exists "" | by exists (String c pre)].
    + intros [[|d pre] H]; simpl in H; [by left|].
      right. injection H as -> ->. by exists pre.
Qed.

(** A mention of an extension is an occurrence of it, in any case, and
    more: the occurrence is not continued by a word character. *)
Lemma mentions_contains ext question :
  Rules.mentions ext question = true -> Rules.contains_ci ext question = true.
Proof.
  unfold Rules.mentions, Rules.contains_ci. rewrite ReFacts.contains_anywhere.
  rewrite !anywhere_iff. intros (pre & x & -> & Hx).
  apply andb_prop in Hx as [Hx _]. by exists pre, x.
Qed.

Example mention_any_case :
  Rules.mentions ".zip" "Unpack DATA.ZIP, then count the rows" = true.
Proof. reflexivity. Qed.

Example zipper_is_no_mention :
  Rules.contains_ci ".zip" "Is a .zipper a file?" = true
  /\ Rules.mentions ".zip" "Is a .zipper a file?" = false.
Proof. split; reflexivity. Qed.

Example scheme_alone_is_no_url :
  Rules.has_url "What does http:// mean?" = false.
Proof. reflexivity. Qed.

End RulesFacts.

(** ** The General Answer Service *)

Section General.
Variable env : Env.

Lemma general_returns question st :
  exists answer,
    process_general_question env question st = (Ret answer, after_entering General st).
Proof.
  unfold process_general_question, bind, entered, try_except, lift, ret.
  destruct (negb (key_configured env)); [by eexists|].
  destruct (chat_completion env question); by eexists.
Qed.

(** C6.  When no API credential is configured (the variable is unset, or
    set to the empty text), [process_general_question] returns exactly the
    fixed "API key not configured" sentence, whatever the question. *)
Theorem general_without_key question st :
  openai_api_key env = None \/ openai_api_key env = Some "" ->
  fst (process_general_question env question st)
  = Ret "API key not configured. Please set the OPENAI_API_KEY environment variable.".
Proof.
  intros Hkey.
  assert (Hc : key_configured env = false).
  { unfold key_configured. by destruct Hkey as [-> | ->]. }
  unfold process_general_question, bind, entered, try_except, ret.
  by rewrite Hc.
Qed.

End General.

Lemma general_without_key_witness :
  fst (process_general_question Example.env "What is 2 + 2?" Example.empty)
  = Ret "API key not configured. Please set the OPENAI_API_KEY environment variable.".
Proof. apply general_without_key. by left. Defined.

(** ** The endpoint without a question *)

(** C8.  A POST request whose [question] field is missing or empty is
    answered with status 400 and the body [{"error": "No question
    provided"}]; the state is returned as it was, so no handler was entered
    and no file was created. *)
Theorem no_question_400 env req st :
  form_question req = None \/ form_question req = Some "" ->
  process_question env req st
  = ({| status := 400; body := JsonError "No question provided" |}, st)
  /\ log (snd (process_question env req st)) = log st.
Proof.
  intros Hq. unfold process_question, process_question_body.
  by destruct Hq as [-> | ->].
Qed.

Lemma no_question_400_witness :
  process_question Example.env
    {| form_question := Some ""; upload := Some ("data.csv", "answer") |} Example.st
  = ({| status := 400; body := JsonError "No question provided" |}, Example.st)
  /\ log (snd (process_question Example.env
       {| form_question := Some ""; upload := Some ("data.csv", "answer") |} Example.st))
     = log Example.st.
Proof. apply no_question_400. by right. Defined.

(** ** The Webpage handler *)

Lemma webpage_returns env question st :
  exists answer st', process_webpage_question env question st = (Ret answer, st').
Proof.
  unfold process_webpage_question, bind, entered, try_except, lift, ret.
  destruct (Re.findall Re.url_pattern question) as [|url rest]; [by eexists _, _|].
  destruct (requests_get env url) as [page|msg]; [|by eexists _, _].
  destruct (soup_get_text env page) as [text|msg]; [|by eexists _, _].
  match goal with
  | |- context [process_general_question env ?q ?s] =>
      destruct (general_returns env q s) as [answer ->]
  end.
  by eexists _, _.
Qed.

(** C7.  The Webpage handler never raises, and when fetching the first URL
    of the question fails, or parsing the fetched page fails, it returns
    "Error processing webpage: " followed by the failure message. *)
Theorem webpage_failure_is_text env question st :
  (exists answer st',
     process_webpage_question env question st = (Ret answer, st'))
  /\ (forall url rest msg,
        Re.findall Re.url_pattern question = url :: rest ->
        (requests_get env url = Raise msg
         \/ exists page, requests_get env url = Ret page
                         /\ soup_get_text env page = Raise msg) ->
        fst (process_webpage_question env question st)
        = Ret ("Error processing webpage: " ++ msg)).
Proof.
  split; [apply webpage_returns|].
  intros url rest msg Hurl Hfail.
  unfold process_webpage_question, bind, entered, try_except, lift, ret.
  rewrite Hurl.
  destruct Hfail as [-> | (page & -> & ->)]; done.
Qed.

Lemma webpage_failure_is_text_witness :
  fst (process_webpage_question Example.env
         "Summarise https://example.com/page please" Example.empty)
  = Ret "Error processing webpage: Connection refused".
Proof.
  apply (proj2 (webpage_failure_is_text Example.env
                  "Summarise https://example.com/page please" Example.empty)
           "https://example.com/page" []).
  - vm_compute. reflexivity.
  - left. reflexivity.
Defined.

(** ** The handlers entered during a call *)

Section Log.
Variable env : Env.

Lemma keeps_ret {A} (a : A) : keeps_log (ret a).
Proof. done. Qed.

Lemma keeps_lift {A} (r : result A) : keeps_log (lift r).
Proof. done. Qed.

Lemma keeps_bind {A B} (m : M A) (f : A -> M B) :
  keeps_log m -> (forall a, keeps_log (f a)) -> keeps_log (bind m f).
Proof.
  intros Hm Hf st. unfold bind. specialize (Hm st).
  destruct (m st) as [[a|msg] st1]; [|done].
  simpl in Hm. by rewrite Hf.
Qed.

Lemma keeps_is_zipfile p : keeps_log (OS.is_zipfile env p).
Proof. intros st. unfold OS.is_zipfile. by destruct (fs st !! p) as [[?|?]|]. Qed.

Lemma keeps_create_temp e what : keeps_log (OS.create_temp env e what).
Proof. intros st. unfold OS.create_temp. by destruct (OS.fresh_path _ _ _ _) as [[? ?]|]. Qed.

Lemma keeps_extractall p dir : keeps_log (OS.extractall env p dir).
Proof.
  intros st. unfold OS.extractall.
  destruct (fs st !! p) as [[bytes|?]|]; [|done..]. by destruct (zip_extract env bytes).
Qed.

Lemma keeps_walk top : keeps_log (OS.walk top).
Proof. intros st. unfold OS.walk. by destruct (fs st !! top) as [[?|?]|]. Qed.

Lemma keeps_pd_read_csv p : keeps_log (OS.pd_read_csv env p).
Proof. intros st. unfold OS.pd_read_csv. by destruct (fs st !! p) as [[?|?]|]. Qed.

Lemma delegate_keeps {A} (m : M A) : keeps_log m -> may_delegate m.
Proof. intros Hm st. left. apply Hm. Qed.

Lemma delegate_bind {A B} (m : M A) (f : A -> M B) :
  keeps_log m -> (forall a, may_delegate (f a)) -> may_delegate (bind m f).
Proof.
  intros Hm Hf st. unfold bind. specialize (Hm st).
  destruct (m st) as [[a|msg] st1]; simpl in Hm; [|by left].
  rewrite <- Hm. apply Hf.
Qed.

Lemma delegate_try {A} (m : M A) (h : string -> M A) :
  may_delegate m -> (forall e, keeps_log (h e)) -> may_delegate (try_except m h).
Proof.
  intros Hm Hh st. unfold try_except. specialize (Hm st).
  destruct (m st) as [[a|msg] st1]; simpl in Hm; [done|].
  by rewrite Hh.
Qed.

Lemma delegate_general question : may_delegate (process_general_question env question).
Proof.
  intros st. destruct (general_returns env question st) as [answer ->]. by right.
Qed.

(** A handler that logs its entry and then, at most, delegates. *)
Lemma entered_then h (rest : M string) st :
  may_delegate rest ->
  exists l, log (snd ((do entered h then rest) st)) = (log st ++ h :: l)%list
            /\ (l = [] \/ l = [General]).
Proof.
  intros Hrest. unfold bind at 1, entered.
  destruct (Hrest (after_entering h st)) as [-> | ->].
  - exists []. by split; [|left].
  - exists [General]. split; [|by right]. simpl. by rewrite <- app_assoc.
Qed.

Lemma csv_log question file_path st :
  exists l, log (snd (process_csv_question env question file_path st))
            = (log st ++ CSV :: l)%list
            /\ (l = [] \/ l = [General]).
Proof.
  apply entered_then.
  apply delegate_bind.
  { destruct (Str.endswith file_path ".zip"); [apply keeps_ret | apply keeps_is_zipfile]. }
  intros [|].
  - apply delegate_bind; [apply keeps_create_temp|]. intros temp_dir.
    apply delegate_bind; [apply keeps_extractall|]. intros _.
    apply delegate_bind; [apply keeps_walk|]. intros walked.
    destruct (collect_csv walked) as [|[csv_path csv_bytes] others];
      [apply delegate_keeps, keeps_ret|].
    apply delegate_bind; [apply keeps_lift|]. intros df.
    destruct (Str.contains _ _); [|apply delegate_general].
    destruct (has_column df "answer"); [|apply delegate_keeps, keeps_ret].
    apply delegate_keeps, keeps_bind; [apply keeps_lift | intros v; apply keeps_ret].
  - destruct (Str.endswith file_path ".csv"); [|apply delegate_keeps, keeps_ret].
    apply delegate_bind; [apply keeps_pd_read_csv|]. intros df.
    destruct (Str.contains _ _); [|apply delegate_general].
    destruct (has_column df "answer"); [|apply delegate_keeps, keeps_ret].
    apply delegate_keeps, keeps_bind; [apply keeps_lift | intros v; apply keeps_ret].
Qed.

Lemma youtube_log question st :
  exists l, log (snd (process_youtube_question env question st))
            = (log st ++ YouTube :: l)%list
            /\ (l = [] \/ l = [General]).
Proof.
  apply entered_then.
  destruct (Re.findall _ question) as [|url rest]; [apply delegate_keeps, keeps_ret|].
  apply delegate_try; [|intros e; apply keeps_ret].
  apply delegate_bind; [apply keeps_lift|]. intros yt. apply delegate_general.
Qed.

Lemma webpage_log question st :
  exists l, log (snd (process_webpage_question env question st))
            = (log st ++ Webpage :: l)%list
            /\ (l = [] \/ l = [General]).
Proof.
  apply entered_then.
  destruct (Re.findall _ question) as [|url rest]; [apply delegate_keeps, keeps_ret|].
  apply delegate_try; [|intros e; apply keeps_ret].
  apply delegate_bind; [apply keeps_lift|]. intros text.
  apply delegate_bind; [apply keeps_lift|]. intros page. apply delegate_general.
Qed.

(** Running a handler enters it first, and after it at most the General
    handler, to which it delegates. *)
Lemma run_log h question file_path st :
  exists l, log (snd (Rules.run env h question file_path st)) = (log st ++ h :: l)%list
            /\ (l = [] \/ l = [General]).
Proof.
  destruct h; simpl.
  - apply csv_log.
  - exists []. by split; [|left].
  - apply youtube_log.
  - apply webpage_log.
  - destruct (general_returns env question st) as [answer ->].
    exists []. by split; [|left].
Qed.

End Log.

(** ** The router *)

Section Router.
Variable env : Env.

Lemma search_zip q : Re.search true (Re.ext_pattern ".zip") q = Rules.mentions ".zip" q.
Proof. by apply (ReFacts.search_ext ".zip" "p"). Qed.

Lemma search_csv q : Re.search true (Re.ext_pattern ".csv") q = Rules.mentions ".csv" q.
Proof. by apply (ReFacts.search_ext ".csv" "v"). Qed.

Lemma search_pdf q : Re.search true (Re.ext_pattern ".pdf") q = Rules.mentions ".pdf" q.
Proof. by apply (ReFacts.search_ext ".pdf" "f"). Qed.

Lemma router_is_route question file_path :
  process_assignment_question env question file_path
  = Rules.run env (Rules.route question file_path) question file_path.
Proof.
  unfold process_assignment_question, Rules.route.
  rewrite search_zip, search_csv, search_pdf, ReFacts.search_youtube, ReFacts.search_url.
  destruct (path_given file_path
            && (Rules.mentions ".zip" question || Rules.mentions ".csv" question)); [done|].
  destruct (path_given file_path && Rules.mentions ".pdf" question); [done|].
  destruct (Rules.contains_ci "youtube.com" question
            || Rules.contains_ci "youtu.be" question); [done|].
  by destruct (Rules.has_url question).
Qed.

(** C2.  The router runs exactly the handler that the ordered rules of the
    specification select (first match wins): CSV for a given file and a
    mention of .zip or .csv, else PDF for a given file and a mention of
    .pdf, else YouTube for youtube.com or youtu.be, else Webpage for an
    http(s):// URL, else General.  That handler is the first one entered,
    and the only other one entered is the General handler when the first
    delegates to it.  In particular, when the two file rules
    do not apply, a question that has both a YouTube address and an
    http(s):// URL is handled by the YouTube handler. *)
Theorem router_first_match question file_path :
  process_assignment_question env question file_path
  = Rules.run env (Rules.route question file_path) question file_path
  /\ (forall st, exists l,
        log (snd (process_assignment_question env question file_path st))
        = (log st ++ Rules.route question file_path :: l)%list
        /\ (l = [] \/ l = [General]))
  /\ (path_given file_path
        && (Rules.mentions ".zip" question || Rules.mentions ".csv" question) = false ->
      path_given file_path && Rules.mentions ".pdf" question = false ->
      Rules.contains_ci "youtube.com" question || Rules.contains_ci "youtu.be" question = true ->
      Rules.has_url question = true ->
      process_assignment_question env question file_path
      = process_youtube_question env question).
Proof.
  split; [apply router_is_route|]. split.
  - intros st. rewrite router_is_route. apply run_log.
  - intros H1 H2 H3 _. rewrite router_is_route. unfold Rules.route.
    by rewrite H1, H2, H3.
Qed.

(** C3, as amended.  A question without a file that contains neither an
    http(s):// URL nor the text youtube.com or youtu.be is delegated to
    [process_general_question]. *)
Theorem plain_question_is_general question :
  Rules.contains_ci "youtube.com" question = false ->
  Rules.contains_ci "youtu.be" question = false ->
  Rules.has_url question = false ->
  process_assignment_question env question None
  = process_general_question env question.
Proof.
  intros H1 H2 H3. rewrite router_is_route. unfold Rules.route.
  by rewrite H1, H2, H3.
Qed.

End Router.

Lemma router_first_match_witness :
  process_assignment_question Example.env
    "Compare https://youtu.be/abc123 with https://example.com/page" (Some "/tmp/upload")
  = process_youtube_question Example.env
      "Compare https://youtu.be/abc123 with https://example.com/page".
Proof.
  apply (proj2 (proj2 (router_first_match Example.env
    "Compare https://youtu.be/abc123 with https://example.com/page" (Some "/tmp/upload"))));
    vm_compute; reflexivity.
Defined.

Lemma plain_question_is_general_witness :
  process_assignment_question Example.env "What is 2 + 2?" None
  = process_general_question Example.env "What is 2 + 2?".
Proof. apply plain_question_is_general; vm_compute; reflexivity. Defined.

(** C3, as stated, fails: a question without a file and without any
    http(s):// URL that names youtube.com goes to the YouTube handler, whose
    answer is not the General handler's. *)
Lemma youtube_name_not_general :
  Rules.has_url "Is youtube.com down today?" = false
  /\ fst (process_assignment_question Example.env "Is youtube.com down today?" None
            Example.empty)
     = Ret "No YouTube URL found in the question."
  /\ fst (process_general_question Example.env "Is youtube.com down today?" Example.empty)
     = Ret "API key not configured. Please set the OPENAI_API_KEY environment variable."
  /\ process_assignment_question Example.env "Is youtube.com down today?" None Example.empty
     <> process_general_question Example.env "Is youtube.com down today?" Example.empty.
Proof.
  split; [vm_compute; reflexivity|].
  split; [vm_compute; reflexivity|].
  split; [vm_compute; reflexivity|].
  intros H. apply (f_equal fst) in H. vm_compute in H. discriminate.
Qed.

(** ** The CSV handler *)

Section CsvHandler.
Variable env : Env.

Lemma fresh_path_free tries i files p j :
  OS.fresh_path env tries i files = Some (p, j) -> files !! p = None.
Proof.
  revert i. induction tries as [|tries IH]; intros i; simpl; [done|].
  destruct (files !! OS.path_join _ _) eqn:Hp; [apply IH|].
  intros [= <- <-]. exact Hp.
Qed.

(** The ZIP branch up to the choice of the CSV file. *)
Lemma csv_zip_run question file_path st bytes dir i ts :
  fs st !! file_path = Some (EFile bytes) ->
  zip_for_handler env file_path bytes ->
  OS.fresh_path env (TMP_MAX env) (drawn st) (fs st) = Some (dir, i) ->
  zip_extract env bytes = Ret ts ->
  process_csv_question env question file_path st
  = let st2 := {| fs := <[dir := EDir ts]> (<[dir := EDir []]> (fs st));
                  drawn := i; log := (log st ++ [CSV])%list |} in
    match collect_csv ((dir, OS.dirnames ts, OS.filenames ts)
                       :: flat_map (OS.walk_tree dir) ts) with
    | [] => (Ret "No CSV files found in the ZIP archive.", st2)
    | (_, csv_bytes) :: _ =>
        (let* df := lift (read_csv env csv_bytes) in table_answer env question df) st2
    end.
Proof.
  intros Hfile Hzip Hfresh Hextract.
  pose proof (fresh_path_free _ _ _ _ _ Hfresh) as Hfree.
  assert (Hne : dir <> file_path) by (intros ->; congruence).
  unfold process_csv_question.
  unfold bind at 1. unfold entered, after_entering.
  assert (His : (if Str.endswith file_path ".zip" then ret true
                 else OS.is_zipfile env file_path)
                  {| fs := fs st; drawn := drawn st; log := (log st ++ [CSV])%list |}
                = (Ret true, {| fs := fs st; drawn := drawn st;
                                log := (log st ++ [CSV])%list |})).
  { destruct Hzip as [-> | Hsig]; [done|].
    destruct (Str.endswith file_path ".zip"); [done|].
    unfold OS.is_zipfile. simpl. by rewrite Hfile, Hsig. }
  unfold bind at 1. rewrite His.
  unfold bind at 1. unfold OS.mkdtemp, OS.create_temp. simpl fs. simpl drawn.
  rewrite Hfresh.
  unfold bind at 1. unfold OS.extractall. simpl fs.
  rewrite lookup_insert_ne, Hfile, Hextract by done.
  unfold bind at 1. unfold OS.walk, set_fs. simpl fs.
  rewrite lookup_insert_eq. simpl.
  match goal with
  | |- match ?l with _ => _ end _ = _ => destruct l as [|[csv_path csv_bytes] others]
  end; done.
Qed.

(** The branch of a file that is a CSV by its name. *)
Lemma csv_direct_run question file_path st bytes :
  fs st !! file_path = Some (EFile bytes) ->
  Str.endswith file_path ".zip" = false ->
  zip_signature env bytes = false ->
  Str.endswith file_path ".csv" = true ->
  process_csv_question env question file_path st
  = (let* df := lift (read_csv env bytes) in table_answer env question df)
      (after_entering CSV st).
Proof.
  intros Hfile Hzip Hsig Hcsv.
  unfold process_csv_question, bind at 1, entered, bind at 1.
  rewrite Hzip. unfold OS.is_zipfile. simpl fs. rewrite Hfile, Hsig, Hcsv.
  unfold bind at 1, OS.pd_read_csv. simpl fs. rewrite Hfile.
  unfold bind, lift.
  by destruct (read_csv env bytes).
Qed.

(** The last branch. *)
Lemma csv_unsupported_run question file_path st bytes :
  fs st !! file_path = Some (EFile bytes) ->
  Str.endswith file_path ".zip" = false ->
  zip_signature env bytes = false ->
  Str.endswith file_path ".csv" = false ->
  process_csv_question env question file_path st
  = (Ret "Unsupported file format.", after_entering CSV st).
Proof.
  intros Hfile Hzip Hsig Hcsv.
  unfold process_csv_question, bind at 1, entered, bind at 1.
  rewrite Hzip. unfold OS.is_zipfile. simpl fs. by rewrite Hfile, Hsig, Hcsv.
Qed.

Lemma column_has df name v vs :
  column df name = v :: vs -> has_column df name = true.
Proof.
  unfold column, has_column. destruct df as [cols]. simpl.
  induction cols as [|col cols IH]; simpl; [done|].
  destruct (String.eqb (fst col) name); [done|]. apply IH.
Qed.

Lemma table_answer_value question df st v vs :
  Str.contains (Str.lower question) "answer column" = true ->
  column df "answer" = v :: vs ->
  table_answer env question df st = (Ret (py_str v), st).
Proof.
  intros Hq Hcol. unfold table_answer.
  by rewrite Hq, (column_has _ _ _ _ Hcol), Hcol.
Qed.

Lemma table_answer_missing question df st :
  Str.contains (Str.lower question) "answer column" = true ->
  has_column df "answer" = false ->
  table_answer env question df st = (Ret "No 'answer' column found in the CSV.", st).
Proof. intros Hq Hcol. unfold table_answer. by rewrite Hq, Hcol. Qed.

Lemma loaded_run question file_path st df :
  csv_loaded env st file_path df ->
  exists st', process_csv_question env question file_path st
              = table_answer env question df st'.
Proof.
  intros [bytes dir i ts csv_path csv_bytes others Hfile Hzip Hfresh Hex Hcsv Hread
         | bytes Hfile Hzip Hsig Hcsv Hread].
  - rewrite (csv_zip_run _ _ _ _ _ _ _ Hfile Hzip Hfresh Hex). cbv zeta.
    rewrite Hcsv. unfold bind, lift. rewrite Hread. by eexists.
  - rewrite (csv_direct_run _ _ _ _ Hfile Hzip Hsig Hcsv).
    unfold bind, lift. rewrite Hread. by eexists.
Qed.

(** C4, as amended.  For every CSV file that the handler loads, if the
    question contains "answer column" in any case, then the handler returns
    the text of the first row's value of the column named "answer" when
    the column exists and has a first row, and returns exactly
    "No 'answer' column found in the CSV." when no column has that name. *)
Theorem answer_column question file_path st df :
  csv_loaded env st file_path df ->
  Str.contains (Str.lower question) "answer column" = true ->
  (forall v vs, column df "answer" = v :: vs ->
     fst (process_csv_question env question file_path st) = Ret (py_str v))
  /\ (has_column df "answer" = false ->
      fst (process_csv_question env question file_path st)
      = Ret "No 'answer' column found in the CSV.").
Proof.
  intros Hload Hq.
  destruct (loaded_run question _ _ _ Hload) as [st' ->].
  split.
  - intros v vs Hcol. by rewrite (table_answer_value _ _ _ _ _ Hq Hcol).
  - intros Hcol. by rewrite (table_answer_missing _ _ _ Hq Hcol).
Qed.

Lemma tree_induction (P : tree -> Prop) :
  (forall name content, P (TFile name content)) ->
  (forall name children, Forall P children -> P (TDir name children)) ->
  forall t, P t.
Proof.
  intros Hfile Hdir.
  refine (fix rec (t : tree) : P t :=
            match t with
            | TFile name content => Hfile name content
            | TDir name children =>
                Hdir name children
                  ((fix all (l : list tree) : Forall P l :=
                      match l with
                      | [] => Forall_nil_2 P
                      | t' :: l' => Forall_cons_2 P t' l' (rec t') (all l')
                      end) children)
            end).
Qed.

Lemma collect_csv_app l1 l2 :
  collect_csv (l1 ++ l2)%list = (collect_csv l1 ++ collect_csv l2)%list.
Proof. unfold collect_csv. apply flat_map_app. Qed.

Lemma collect_csv_cons root dirs files l :
  collect_csv ((root, dirs, files) :: l)
  = (flat_map (fun '(file, content) =>
       if Str.endswith file ".csv" then [(OS.path_join root file, content)] else [])
       files ++ collect_csv l)%list.
Proof. done. Qed.

Lemma no_csv_names root ts :
  existsb has_csv ts = false ->
  flat_map (fun '(file, content) =>
    if Str.endswith file ".csv" then [(OS.path_join root file, content)] else [])
    (OS.filenames ts) = [].
Proof.
  induction ts as [|t ts IH]; simpl; [done|].
  intros H. apply orb_false_elim in H as [Ht Hts].
  unfold OS.filenames in *. simpl. rewrite flat_map_app, (IH Hts), app_nil_r.
  destruct t as [name content|name children]; simpl; [|done].
  simpl in Ht. by rewrite Ht.
Qed.

Lemma no_csv_walk t :
  forall root, has_csv t = false -> collect_csv (OS.walk_tree root t) = [].
Proof.
  induction t as [name content|name children IH] using tree_induction;
    intros root Ht; [done|].
  simpl in Ht. cbn [OS.walk_tree]. cbv zeta.
  rewrite collect_csv_cons, (no_csv_names _ _ Ht). simpl app.
  generalize (OS.path_join root name) as here. intros here.
  induction IH as [|t ts Hhead _ IHts]; simpl; [done|].
  simpl in Ht. apply orb_false_elim in Ht as [Ht Hts].
  by rewrite collect_csv_app, (Hhead here Ht), (IHts Hts).
Qed.

Lemma no_csv_collect top ts :
  existsb has_csv ts = false ->
  collect_csv ((top, OS.dirnames ts, OS.filenames ts) :: flat_map (OS.walk_tree top) ts) = [].
Proof.
  intros Hts. rewrite collect_csv_cons, (no_csv_names _ _ Hts). simpl app.
  induction ts as [|t ts IH]; simpl; [done|].
  simpl in Hts. apply orb_false_elim in Hts as [Ht Hts].
  by rewrite collect_csv_app, (no_csv_walk t top Ht), (IH Hts).
Qed.

(** C5.  For every attached ZIP archive (a ZIP by its name or by its
    bytes) whose extracted contents hold, at any depth, no file with a name
    ending in [.csv], the CSV handler returns exactly
    "No CSV files found in the ZIP archive." *)
Theorem zip_without_csv question file_path st bytes ts :
  fs st !! file_path = Some (EFile bytes) ->
  zip_for_handler env file_path bytes ->
  temp_available env st ->
  zip_extract env bytes = Ret ts ->
  existsb has_csv ts = false ->
  fst (process_csv_question env question file_path st)
  = Ret "No CSV files found in the ZIP archive.".
Proof.
  intros Hfile Hzip [[dir i] Hfresh] Hex Hnone.
  rewrite (csv_zip_run _ _ _ _ _ _ _ Hfile Hzip Hfresh Hex). cbv zeta.
  by rewrite (no_csv_collect _ _ Hnone).
Qed.

End CsvHandler.

Lemma answer_column_witness :
  fst (process_csv_question Example.env_online
         "Give the value in the Answer Column of data.zip" "/srv/upload" Example.st_zip)
  = Ret "7".
Proof.
  apply (proj1 (answer_column Example.env_online
                  "Give the value in the Answer Column of data.zip" "/srv/upload"
                  Example.st_zip
                  {| columns := [("answer", [VInt 7; VInt 8]); ("x", [VStr "a"; VStr "b"])] |}
                  ltac:(by eapply (loaded_from_zip _ _ _ _ "PK-archive"
                                     "/tmp/tmpaaaaaaaa" 1);
                           [vm_compute; reflexivity | right; reflexivity
                           | vm_compute; reflexivity | reflexivity
                           | vm_compute; reflexivity | reflexivity])
                  ltac:(vm_compute; reflexivity))
           (VInt 7) [VInt 8]).
  reflexivity.
Defined.

(** C4, as stated, fails: a CSV file with the header [answer] and no data
    row is loaded, its table has the column, and the handler raises. *)
Lemma header_only_csv_raises :
  csv_loaded Example.env Example.st "data.csv" {| columns := [("answer", [])] |}
  /\ Str.contains (Str.lower "What is in the answer column of data.csv?") "answer column" = true
  /\ has_column {| columns := [("answer", [])] |} "answer" = true
  /\ fst (process_csv_question Example.env "What is in the answer column of data.csv?"
            "data.csv" Example.st)
     = Raise "single positional indexer is out-of-bounds".
Proof.
  split; [|by vm_compute].
  apply (loaded_directly _ _ _ _ ("answer" ++ Str.nl)); by vm_compute.
Qed.

Lemma zip_without_csv_witness :
  fst (process_csv_question Example.env "How many rows are in data.zip?" "/srv/upload"
         Example.st_zip)
  = Ret "No CSV files found in the ZIP archive.".
Proof.
  apply (zip_without_csv Example.env _ "/srv/upload" Example.st_zip "PK-archive"
           [TDir "notes" [TFile "readme.txt" "hello"]]).
  - vm_compute. reflexivity.
  - right. reflexivity.
  - vm_compute. eexists. reflexivity.
  - reflexivity.
  - reflexivity.
Defined.

(** ** Failures inside the handlers *)

Lemma youtube_returns env question st :
  exists answer st', process_youtube_question env question st = (Ret answer, st').
Proof.
  unfold process_youtube_question, bind, entered, try_except, lift, ret.
  destruct (Re.findall Re.youtube_url_pattern question) as [|url rest]; [by eexists _, _|].
  destruct (youtube_metadata env url) as [yt|msg]; [|by eexists _, _].
  match goal with
  | |- context [process_general_question env ?q ?s] =>
      destruct (general_returns env q s) as [answer ->]
  end.
  by eexists _, _.
Qed.

Lemma pdf_returns question file_path st :
  exists answer st', process_pdf_question question file_path st = (Ret answer, st').
Proof. by eexists _, _. Qed.

(** Where the contract of the router holds: every failure inside the PDF,
    YouTube, Webpage and General handlers is turned into a text answer, so
    the router returns an answer string unless the CSV handler is the one
    selected and an exception is raised inside it. *)
Theorem router_answers_unless_csv_raises env question file_path st :
  (exists answer st',
     process_assignment_question env question file_path st = (Ret answer, st'))
  \/ (Rules.route question file_path = CSV
      /\ exists msg st',
           process_csv_question env question (the_path file_path) st = (Raise msg, st')
           /\ process_assignment_question env question file_path st = (Raise msg, st')).
Proof.
  rewrite router_is_route.
  destruct (Rules.route question file_path) eqn:Hroute; simpl.
  - destruct (process_csv_question env question (the_path file_path) st)
      as [[answer|msg] st'] eqn:Hcsv.
    + left. by eexists _, _.
    + right. split; [done|]. by eexists _, _.
  - left. apply pdf_returns.
  - left. apply youtube_returns.
  - left. apply webpage_returns.
  - left. destruct (general_returns env question st) as [answer ->]. by eexists _, _.
Qed.

(** C1.  The code breaks the contract that the router never raises:
    [process_csv_question] lacks the [try]/[except] that the YouTube,
    Webpage and General handlers have.  For a CSV file that has a header
    and no row, a question about its answer column makes the router raise
    instead of returning a text answer; and a request that uploads a ZIP
    archive holding such a file is answered with status 500. *)
Lemma router_raises :
  "What is in the answer column of data.csv?" <> ""
  /\ fst (process_assignment_question Example.env
            "What is in the answer column of data.csv?" (Some "data.csv") Example.st)
     = Raise "single positional indexer is out-of-bounds"
  /\ fst (process_question Example.env Example.req_table Example.empty)
     = {| status := 500;
          body := JsonError "single positional indexer is out-of-bounds" |}.
Proof. split; [done | by vm_compute]. Qed.

(** ** Temporary names *)

Module TempFacts.

Lemma length_app (a b : string) :
  String.length (a ++ b) = String.length a + String.length b.
Proof. induction a as [|c a IH]; simpl; [done|]. by rewrite IH. Qed.

Lemma has_char_app c (a b : string) :
  Str.has_char c (a ++ b) = Str.has_char c a || Str.has_char c b.
Proof.
  induction a as [|d a IH]; simpl; [done|]. rewrite IH. by rewrite orb_assoc.
Qed.

Lemma endswith_cons c s suf :
  Str.endswith (String c s) suf = String.eqb (String c s) suf || Str.endswith s suf.
Proof. done. Qed.

(** A text that ends with [suf] has every character of [suf]. *)
Lemma endswith_has_char c s suf :
  Str.endswith s suf = true -> Str.has_char c suf = true -> Str.has_char c s = true.
Proof.
  intros Hend Hc. induction s as [|d s IH].
  - by destruct suf.
  - rewrite endswith_cons in Hend. apply orb_prop in Hend as [Heq | Hend].
    + apply String.eqb_eq in Heq. by subst suf.
    + simpl. rewrite (IH Hend). apply orb_true_r.
Qed.

(** A suffix no longer than [w] is a suffix of [x ++ w] only inside [w]. *)
Lemma endswith_app x w suf :
  String.length suf <= String.length w ->
  Str.endswith (x ++ w) suf = Str.endswith w suf.
Proof.
  intros Hlen. induction x as [|c x IH]; [done|].
  change (String c x ++ w) with (String c (x ++ w)).
  rewrite endswith_cons, IH.
  destruct (String.eqb_spec (String c (x ++ w)) suf) as [Heq|]; [|done].
  apply (f_equal String.length) in Heq. simpl in Heq. rewrite length_app in Heq. lia.
Qed.

Lemma choose_plain n :
  Ascii.eqb (OS.choose n) "." = false /\ Ascii.eqb (OS.choose n) "/" = false.
Proof.
  unfold OS.choose.
  pose proof (Nat.mod_upper_bound n 37 ltac:(done)) as Hlt.
  destruct (n mod 37) as [|m]; [done|].
  do 36 (destruct m as [|m]; [done|]).
  lia.
Qed.

(** The last component of a temporary path: eleven characters, no dot and
    no slash. *)
Lemma temp_name_plain env i :
  String.length ("tmp" ++ OS.random_name env i) = 11
  /\ Str.has_char "." ("tmp" ++ OS.random_name env i) = false
  /\ Str.has_char "/" ("tmp" ++ OS.random_name env i) = false.
Proof.
  split; [done|]. unfold OS.random_name. simpl.
  split; repeat (apply orb_false_intro; [apply choose_plain|]); done.
Qed.

Lemma path_join_app a b :
  Str.startswith b "/" = false ->
  exists pre, OS.path_join a b = pre ++ b /\ (pre = "" \/ Str.endswith pre "/" = true).
Proof.
  intros Hb. unfold OS.path_join. rewrite Hb.
  destruct (String.eqb_spec a "") as [->|Ha]; simpl.
  - exists "". by split; [|left].
  - destruct (Str.endswith a "/") eqn:Hend.
    + exists a. by split; [|right].
    + exists (a ++ "/"). split.
      * clear. induction a as [|c a IH]; [done|].
        change (String c (a ++ "/" ++ b) = String c ((a ++ "/") ++ b)).
        by rewrite IH.
      * right. clear. induction a as [|c a IH]; [done|].
        change (String c a ++ "/") with (String c (a ++ "/")).
        rewrite endswith_cons, IH. apply orb_true_r.
Qed.

Lemma basename_app pre name :
  Str.has_char "/" name = false ->
  pre = "" \/ Str.endswith pre "/" = true ->
  Str.basename (pre ++ name) = name.
Proof.
  intros Hname. induction pre as [|c pre IH]; intros Hpre.
  - simpl. destruct name as [|d name]; [done|]. simpl in Hname |- *.
    apply orb_false_elim in Hname as [Hd Hname]. by rewrite Hname, Hd.
  - destruct Hpre as [Hpre|Hpre]; [done|]. rewrite endswith_cons in Hpre. simpl.
    rewrite has_char_app, Hname, orb_false_r.
    destruct (Str.has_char "/" pre) eqn:Hslash.
    + apply IH. apply orb_prop in Hpre as [Heq|Hend]; [|by right].
      apply String.eqb_eq in Heq. injection Heq as _ ->. by left.
    + apply orb_prop in Hpre as [Heq|Hend].
      * apply String.eqb_eq in Heq. injection Heq as -> ->. done.
      * by rewrite (endswith_has_char "/" _ _ Hend) in Hslash.
Qed.

Section Fresh.
Variable env : Env.

Lemma fresh_path_name tries i files p j :
  OS.fresh_path env tries i files = Some (p, j) ->
  exists k, p = OS.path_join (tempdir env) ("tmp" ++ OS.random_name env k).
Proof.
  revert i. induction tries as [|tries IH]; intros i; simpl; [done|].
  destruct (files !! OS.path_join _ _); [apply IH|].
  intros [= <- <-]. by eexists.
Qed.

(** What is known of a path made by [tempfile]. *)
Lemma fresh_path_plain tries i files p j :
  OS.fresh_path env tries i files = Some (p, j) ->
  p <> ""
  /\ Str.has_char "." (Str.basename p) = false
  /\ (forall suf, String.length suf <= 11 -> Str.has_char "." suf = true ->
        Str.endswith p suf = false).
Proof.
  intros Hfresh. destruct (fresh_path_name _ _ _ _ _ Hfresh) as [k ->].
  destruct (temp_name_plain env k) as (Hlen & Hdot & Hslash).
  destruct (path_join_app (tempdir env) ("tmp" ++ OS.random_name env k) eq_refl)
    as (pre & -> & Hpre).
  split; [|split].
  - intros Heq. apply (f_equal String.length) in Heq.
    rewrite length_app, Hlen in Heq. simpl in Heq. lia.
  - by rewrite (basename_app _ _ Hslash Hpre).
  - intros suf Hsuf Hc. rewrite endswith_app by lia.
    destruct (Str.endswith _ suf) eqn:Hend; [|done].
    by rewrite (endswith_has_char "." _ _ Hend Hc) in Hdot.
Qed.

End Fresh.

End TempFacts.

(** ** The endpoint with an upload *)

Section Endpoint.
Variable env : Env.

Lemma named_temporary_file st p st1 :
  OS.NamedTemporaryFile env st = (Ret p, st1) ->
  exists i, OS.fresh_path env (TMP_MAX env) (drawn st) (fs st) = Some (p, i).
Proof.
  unfold OS.NamedTemporaryFile, OS.create_temp.
  destruct (OS.fresh_path _ _ _ _) as [[p' i]|]; [|done].
  intros [= <- _]. by eexists.
Qed.

(** The request up to the call of the router: the upload is saved under a
    fresh temporary name. *)
Lemma upload_saved req st question filename content p i :
  form_question req = Some question -> question <> "" ->
  upload req = Some (filename, content) -> filename <> "" ->
  OS.fresh_path env (TMP_MAX env) (drawn st) (fs st) = Some (p, i) ->
  process_question_body env req st
  = (let* answer := process_assignment_question env question (Some p) in
     do (let* there := OS.path_exists p in
         if there then OS.remove p else ret tt) then
     ret {| status := 200; body := JsonAnswer answer |})
      {| fs := <[p := EFile content]> (<[p := EFile ""]> (fs st));
         drawn := i; log := log st |}.
Proof.
  intros Hq Hne Hup Hname Hfresh.
  destruct (TempFacts.fresh_path_plain env _ _ _ _ _ Hfresh) as (Hp & _).
  unfold process_question_body. rewrite Hq, Hup.
  apply String.eqb_neq in Hne, Hname, Hp. rewrite Hne, Hname. cbn [negb].
  unfold bind at 1. unfold bind at 1.
  unfold OS.NamedTemporaryFile, OS.create_temp. rewrite Hfresh.
  unfold bind at 1. unfold OS.save, set_fs, ret. cbn [fs drawn log].
  unfold path_given, the_path. by rewrite Hp.
Qed.

(** The whole request with an upload, by the outcome of the router and the
    state of the temporary path afterwards. *)
Lemma process_question_upload req st question filename content p i :
  form_question req = Some question -> question <> "" ->
  upload req = Some (filename, content) -> filename <> "" ->
  OS.fresh_path env (TMP_MAX env) (drawn st) (fs st) = Some (p, i) ->
  process_question env req st
  = match process_assignment_question env question (Some p)
            {| fs := <[p := EFile content]> (<[p := EFile ""]> (fs st));
               drawn := i; log := log st |} with
    | (Ret answer, st2) =>
        match fs st2 !! p with
        | Some (EFile _) =>
            ({| status := 200; body := JsonAnswer answer |}, set_fs (delete p) st2)
        | Some (EDir _) =>
            ({| status := 500;
                body := JsonError ("[Errno 21] Is a directory: '" ++ p ++ "'") |}, st2)
        | None => ({| status := 200; body := JsonAnswer answer |}, st2)
        end
    | (Raise msg, st2) => ({| status := 500; body := JsonError msg |}, st2)
    end.
Proof.
  intros Hq Hne Hup Hname Hfresh. unfold process_question.
  rewrite (upload_saved _ _ _ _ _ _ _ Hq Hne Hup Hname Hfresh).
  unfold bind at 1.
  destruct (process_assignment_question env question (Some p) _)
    as [[answer|msg] st2]; [|done].
  unfold bind, OS.path_exists, OS.remove, ret.
  destruct (fs st2 !! p) as [[bytes|ts]|] eqn:Hp; simpl; by rewrite ?Hp.
Qed.

(** C9, as amended.  The temporary file that holds the upload of a request
    is removed by the end of the request whenever the request is answered
    with status 200, that is whenever the router returned an answer. *)
Theorem upload_removed_on_success req st filename content p st1 :
  upload req = Some (filename, content) -> filename <> "" ->
  OS.NamedTemporaryFile env st = (Ret p, st1) ->
  status (fst (process_question env req st)) = 200 ->
  fs (snd (process_question env req st)) !! p = None.
Proof.
  intros Hup Hname Htemp. destruct (named_temporary_file _ _ _ Htemp) as [i Hfresh].
  destruct (form_question req) as [question|] eqn:Hq;
    [destruct (String.eqb_spec question "") as [->|Hne]|].
  - unfold process_question, process_question_body. by rewrite Hq.
  - rewrite (process_question_upload _ _ _ _ _ _ _ Hq Hne Hup Hname Hfresh).
    destruct (process_assignment_question env question (Some p) _)
      as [[answer|msg] st2]; [|done].
    destruct (fs st2 !! p) as [[bytes|ts]|] eqn:Hp; simpl; [|done..].
    intros _. apply lookup_delete_eq.
  - unfold process_question, process_question_body. by rewrite Hq.
Qed.

(** C10.  The path under which [tempfile] saves an upload has a last
    component without a dot, hence no filename extension; therefore an
    uploaded file without ZIP signature, sent with a question that mentions
    .csv or .zip and so reaches the CSV handler, is answered with
    "Unsupported file format." and is not loaded as a CSV. *)
Theorem uploaded_csv_unsupported st :
  (forall p st1,
     OS.NamedTemporaryFile env st = (Ret p, st1) ->
     Str.has_char "." (Str.basename p) = false
     /\ Str.endswith p ".zip" = false /\ Str.endswith p ".csv" = false)
  /\ (forall req question filename content,
        form_question req = Some question ->
        upload req = Some (filename, content) -> filename <> "" ->
        Rules.mentions ".zip" question || Rules.mentions ".csv" question = true ->
        zip_signature env content = false ->
        temp_available env st ->
        fst (process_question env req st)
        = {| status := 200; body := JsonAnswer "Unsupported file format." |}).
Proof.
  assert (Hplain : forall p i,
            OS.fresh_path env (TMP_MAX env) (drawn st) (fs st) = Some (p, i) ->
            p <> "" /\ Str.has_char "." (Str.basename p) = false
            /\ Str.endswith p ".zip" = false /\ Str.endswith p ".csv" = false).
  { intros p i Hfresh.
    destruct (TempFacts.fresh_path_plain env _ _ _ _ _ Hfresh) as (Hp & Hbase & Hext).
    repeat split; [done..| |]; by apply Hext; [simpl; lia|]. }
  split.
  - intros p st1 Htemp. destruct (named_temporary_file _ _ _ Htemp) as [i Hfresh].
    by destruct (Hplain p i Hfresh) as (_ & ? & ? & ?).
  - intros req question filename content Hq Hup Hname Hmention Hsig [[p i] Hfresh].
    destruct (Hplain p i Hfresh) as (Hp & _ & Hzip & Hcsv).
    assert (Hne : question <> "") by (by intros ->).
    rewrite (process_question_upload _ _ _ _ _ _ _ Hq Hne Hup Hname Hfresh).
    unfold process_assignment_question.
    apply String.eqb_neq in Hp.
    unfold path_given. rewrite Hp, search_zip, search_csv, Hmention. cbn [negb andb the_path].
    rewrite (csv_unsupported_run env question p _ content); [|apply lookup_insert_eq|done..].
    unfold after_entering. cbn [fs]. by rewrite lookup_insert_eq.
Qed.

End Endpoint.

Lemma upload_removed_on_success_witness :
  fs (snd (process_question Example.env Example.req_notes Example.empty))
    !! "/tmp/tmpaaaaaaaa" = None.
Proof.
  apply (upload_removed_on_success Example.env Example.req_notes Example.empty
           "data.zip" "PK-archive" "/tmp/tmpaaaaaaaa"
           (snd (OS.NamedTemporaryFile Example.env Example.empty))).
  - reflexivity.
  - discriminate.
  - vm_compute. reflexivity.
  - vm_compute. reflexivity.
Defined.

(** C9, as stated, fails on both sides.  A request that completes with
    status 200 leaves the scratch directory of the CSV handler behind, and
    a request whose handler raises (status 500) leaves both the scratch
    directory and the temporary file of the upload. *)
Lemma temporaries_left_behind :
  (status (fst (process_question Example.env Example.req_notes Example.empty)) = 200
   /\ fs Example.empty !! "/tmp/tmpbbbbbbbb" = None
   /\ fs (snd (process_question Example.env Example.req_notes Example.empty))
        !! "/tmp/tmpbbbbbbbb"
      = Some (EDir [TDir "notes" [TFile "readme.txt" "hello"]]))
  /\ (fst (process_question Example.env Example.req_table Example.empty)
      = {| status := 500;
           body := JsonError "single positional indexer is out-of-bounds" |}
      /\ fs Example.empty !! "/tmp/tmpaaaaaaaa" = None
      /\ fs (snd (process_question Example.env Example.req_table Example.empty))
           !! "/tmp/tmpaaaaaaaa"
         = Some (EFile "PK-table")).
Proof. by vm_compute. Qed.

Lemma uploaded_csv_unsupported_witness :
  (Str.has_char "." (Str.basename "/tmp/tmpaaaaaaaa") = false
   /\ Str.endswith "/tmp/tmpaaaaaaaa" ".zip" = false
   /\ Str.endswith "/tmp/tmpaaaaaaaa" ".csv" = false)
  /\ fst (process_question Example.env Example.req_csv Example.empty)
     = {| status := 200; body := JsonAnswer "Unsupported file format." |}.
Proof.
  split.
  - apply (proj1 (uploaded_csv_unsupported Example.env Example.empty)
             "/tmp/tmpaaaaaaaa" (snd (OS.NamedTemporaryFile Example.env Example.empty))).
    vm_compute. reflexivity.
  - apply (proj2 (uploaded_csv_unsupported Example.env Example.empty)
             Example.req_csv
             "What is the total of column b in data.csv?" "data.csv"
             ("a,b" ++ Str.nl ++ "1,2" ++ Str.nl)).
    + reflexivity.
    + reflexivity.
    + discriminate.
    + vm_compute. reflexivity.
    + reflexivity.
    + eexists. vm_compute. reflexivity.
Defined.

(** ** Further properties of the General Answer Service *)

Module StripFacts.

Lemma lstrip_split s :
  exists l, s = l ++ Str.lstrip s /\ Text.all Char.is_space l = true.
Proof.
  induction s as [|c s (l & Hs & Hl)]; [by exists ""|].
  simpl. destruct (Char.is_space c) eqn:Hc.
  - exists (String c l). simpl. rewrite Hc, Hl. split; [|done].
    change (String c s = String c (l ++ Str.lstrip s)). congruence.
  - by exists "".
Qed.

Lemma lstrip_first s :
  Str.lstrip s = "" \/ Text.first_is Re.nonspace (Str.lstrip s) = true.
Proof.
  induction s as [|c s IH]; [by left|].
  simpl. destruct (Char.is_space c) eqn:Hc; [done|].
  right. simpl. unfold Re.nonspace. by rewrite Hc.
Qed.

Lemma rstrip_split s :
  exists r, s = Str.rstrip s ++ r /\ Text.all Char.is_space r = true.
Proof.
  induction s as [|c s (r & Hs & Hr)]; [by exists ""|].
  simpl. destruct (Str.rstrip s) as [|d t] eqn:Ht.
  - change ("" ++ r) with r in Hs. subst r. destruct (Char.is_space c) eqn:Hc.
    + exists (String c s). simpl. by rewrite Hc, Hr.
    + by exists s.
  - exists r. split; [|done].
    change (String c s = String c (String d t ++ r)). congruence.
Qed.

Lemma rstrip_last s :
  Str.rstrip s = "" \/ Text.last_is Re.nonspace (Str.rstrip s) = true.
Proof.
  induction s as [|c s IH]; [by left|].
  simpl. destruct (Str.rstrip s) as [|d t] eqn:Ht.
  - destruct (Char.is_space c) eqn:Hc; [by left|].
    right. simpl. unfold Re.nonspace. by rewrite Hc.
  - right. destruct IH as [|IH]; [done|]. exact IH.
Qed.

(** Stripping the right end keeps a first character that is no space. *)
Lemma rstrip_first s :
  Text.first_is Re.nonspace s = true ->
  Text.first_is Re.nonspace (Str.rstrip s) = true.
Proof.
  destruct s as [|c s]; [done|]. simpl. intros Hc.
  destruct (Str.rstrip s); [|done].
  unfold Re.nonspace in Hc.
  destruct (Char.is_space c) eqn:E; [done|]. simpl. unfold Re.nonspace. by rewrite E.
Qed.

(** [s.strip()] removes white space from both ends and nothing else. *)
Lemma strip_spec s :
  exists l r,
    s = l ++ Str.strip s ++ r
    /\ Text.all Char.is_space l = true /\ Text.all Char.is_space r = true
    /\ (Str.strip s = ""
        \/ (Text.first_is Re.nonspace (Str.strip s) = true
            /\ Text.last_is Re.nonspace (Str.strip s) = true)).
Proof.
  destruct (lstrip_split s) as (l & Hs & Hl).
  destruct (rstrip_split (Str.lstrip s)) as (r & Hm & Hr).
  exists l, r. unfold Str.strip. repeat split; [by rewrite <- Hm | done..|].
  destruct (rstrip_last (Str.lstrip s)) as [|Hlast]; [by left|]. right.
  split; [|done]. apply rstrip_first.
  destruct (lstrip_first s) as [He|]; [|done].
  rewrite He in Hlast. done.
Qed.

End StripFacts.

Section GeneralMore.
Variable env : Env.

(** X1.  With a credential configured, when the completion service
    answers, the General handler returns the completion text with the
    white space removed from both its ends and nothing else changed: the
    answer neither begins nor ends with white space. *)
Theorem general_answer_is_stripped question st content :
  key_configured env = true ->
  chat_completion env question = Ret content ->
  exists answer l r,
    process_general_question env question st = (Ret answer, after_entering General st)
    /\ content = l ++ answer ++ r
    /\ Text.all Char.is_space l = true /\ Text.all Char.is_space r = true
    /\ (answer = ""
        \/ (Text.first_is Re.nonspace answer = true
            /\ Text.last_is Re.nonspace answer = true)).
Proof.
  intros Hkey Hchat.
  destruct (StripFacts.strip_spec content) as (l & r & Hsplit & Hl & Hr & Hends).
  exists (Str.strip content), l, r. split; [|done].
  unfold process_general_question, bind, entered, try_except, lift, ret.
  by rewrite Hkey, Hchat.
Qed.

(** X2.  The General handler never raises and changes nothing but the log
    of entered handlers; with a credential configured, a failure of the
    completion service with message [msg] is answered with
    "Error using OpenAI API: " followed by [msg]. *)
Theorem general_failure_is_text question st :
  (exists answer,
     process_general_question env question st = (Ret answer, after_entering General st))
  /\ (forall msg,
        key_configured env = true ->
        chat_completion env question = Raise msg ->
        fst (process_general_question env question st)
        = Ret ("Error using OpenAI API: " ++ msg)).
Proof.
  split; [apply general_returns|].
  intros msg Hkey Hchat.
  unfold process_general_question, bind, entered, try_except, lift, ret.
  by rewrite Hkey, Hchat.
Qed.

(** X3.  The YouTube handler never raises; when the question holds no
    YouTube watch or short link it answers "No YouTube URL found in the
    question.", and when fetching the metadata of the first link fails with
    message [msg] it answers "Error processing YouTube video: " followed by
    [msg]. *)
Theorem youtube_failure_is_text question st :
  (exists answer st',
     process_youtube_question env question st = (Ret answer, st'))
  /\ (Re.findall Re.youtube_url_pattern question = [] ->
      process_youtube_question env question st
      = (Ret "No YouTube URL found in the question.", after_entering YouTube st))
  /\ (forall url rest msg,
        Re.findall Re.youtube_url_pattern question = url :: rest ->
        youtube_metadata env url = Raise msg ->
        process_youtube_question env question st
        = (Ret ("Error processing YouTube video: " ++ msg), after_entering YouTube st)).
Proof.
  split; [apply youtube_returns|].
  unfold process_youtube_question, bind, entered, try_except, lift, ret.
  split.
  - by intros ->.
  - intros url rest msg -> Hmeta. by rewrite Hmeta.
Qed.

End GeneralMore.

Lemma general_answer_is_stripped_witness :
  exists answer l r,
    process_general_question Example.env_online "What is 6 x 7?" Example.empty
    = (Ret answer, after_entering General Example.empty)
    /\ " 42 " ++ Str.nl = l ++ answer ++ r
    /\ Text.all Char.is_space l = true /\ Text.all Char.is_space r = true
    /\ (answer = ""
        \/ (Text.first_is Re.nonspace answer = true
            /\ Text.last_is Re.nonspace answer = true)).
Proof.
  apply (general_answer_is_stripped Example.env_online "What is 6 x 7?" Example.empty
           (" 42 " ++ Str.nl)); reflexivity.
Defined.

Lemma general_failure_is_text_witness :
  fst (process_general_question Scenario.env_failing "What is 6 x 7?" Example.empty)
  = Ret "Error using OpenAI API: Rate limit reached".
Proof.
  apply (proj2 (general_failure_is_text Scenario.env_failing "What is 6 x 7?"
                  Example.empty) "Rate limit reached"); reflexivity.
Defined.

Lemma youtube_failure_is_text_witness :
  process_youtube_question Scenario.env_web "Summarise https://youtu.be/abc-123_x please"
    Example.empty
  = (Ret "Error processing YouTube video: video is private",
     after_entering YouTube Example.empty)
  /\ process_youtube_question Scenario.env_web "Is youtube.com down today?" Example.empty
     = (Ret "No YouTube URL found in the question.", after_entering YouTube Example.empty).
Proof.
  split.
  - apply (proj2 (proj2 (youtube_failure_is_text Scenario.env_web
                           "Summarise https://youtu.be/abc-123_x please" Example.empty))
             "https://youtu.be/abc-123_x" []); vm_compute; reflexivity.
  - apply (proj1 (proj2 (youtube_failure_is_text Scenario.env_web
                           "Is youtube.com down today?" Example.empty))).
    vm_compute. reflexivity.
Defined.

(** ** The URL that a handler extracts *)

Module FindFacts.

Import Re.

Lemma starts_exact pat s : starts false pat s = Str.startswith s pat.
Proof.
  revert s. induction pat as [|a pat IH]; intros s; [by destruct s|].
  destruct s as [|b s]; simpl; [done|]. by rewrite IH.
Qed.

Lemma take_drop n s : Str.take n s ++ Str.drop n s = s.
Proof.
  revert s. induction n as [|n IH]; intros s; [by destruct s|].
  destruct s as [|c s]; [done|].
  change (String c (Str.take n s ++ Str.drop n s) = String c s). by rewrite IH.
Qed.

Lemma starts_split pat s :
  starts false pat s = true -> s = pat ++ Str.drop (String.length pat) s.
Proof.
  rewrite starts_exact. revert s. induction pat as [|a pat IH]; intros s.
  - intros _. by destruct s.
  - destruct s as [|b s]; simpl; [done|].
    intros [->%Ascii.eqb_eq Hs]%andb_prop.
    change (String b s = String b (pat ++ Str.drop (String.length pat) s)).
    by rewrite <- (IH s Hs).
Qed.

Lemma run_after_run p s : Scan.run p s ++ Scan.after_run p s = s.
Proof.
  induction s as [|c s IH]; [done|]. simpl. destruct (p c); [|done].
  change (String c (Scan.run p s ++ Scan.after_run p s) = String c s). by rewrite IH.
Qed.

Lemma run_all p s : Text.all p (Scan.run p s) = true.
Proof.
  induction s as [|c s IH]; [done|]. simpl. destruct (p c) eqn:Hc; [|done].
  simpl. by rewrite Hc.
Qed.

Lemma run_first p s :
  Text.first_is p s = true -> Text.first_is p (Scan.run p s) = true.
Proof. destruct s as [|c s]; [done|]. simpl. intros Hc. by rewrite Hc. Qed.

Lemma after_run_first p s : Text.first_is p (Scan.after_run p s) = false.
Proof.
  induction s as [|c s IH]; [done|]. simpl. destruct (p c) eqn:Hc; [done|].
  simpl. exact Hc.
Qed.

Lemma after_run_stuck p s : Text.first_is p s = false -> Scan.after_run p s = s.
Proof. destruct s as [|c s]; [done|]. simpl. by intros ->. Qed.

(** The text before a given suffix, by lengths. *)
Lemma take_before a b :
  Str.take (String.length (a ++ b) - String.length b) (a ++ b) = a.
Proof.
  rewrite TempFacts.length_app.
  replace (String.length a + String.length b - String.length b) with (String.length a) by lia.
  induction a as [|c a IH]; simpl.
  - by destruct b.
  - change (String c a ++ b) with (String c (a ++ b)). simpl. by rewrite IH.
Qed.

(** Greedy repetition with a continuation that accepts everything takes
    the whole run. *)
Lemma plus_greedy {A} p s (k : option ascii -> string -> option A) (f : string -> A) :
  (forall prev x, k prev x = Some (f x)) ->
  plus p s k = if Text.first_is p s then Some (f (Scan.after_run p s)) else None.
Proof.
  intros Hk. induction s as [|c s IH]; [done|].
  simpl. destruct (p c); [|done]. rewrite IH.
  destruct (Text.first_is p s) eqn:Hs; [done|].
  by rewrite Hk, (after_run_stuck _ _ Hs).
Qed.

Lemma go_sep_exact whole prev y :
  go false (Cat (lits "://") (Plus nonspace)) prev y
    (fun _ rest => Some (Scan.before whole rest))
  = if Str.startswith y "://" && Text.first_is nonspace (Str.drop 3 y)
    then Some (Scan.before whole (Scan.after_run nonspace (Str.drop 3 y))) else None.
Proof.
  rewrite ReFacts.go_cat, ReFacts.go_lits, starts_exact.
  destruct (Str.startswith y "://"); [|done].
  cbn [go andb]. by rewrite (plus_greedy _ _ _ (Scan.before whole)).
Qed.

(** [https?://\S+] at a position, without flags: what is matched. *)
Lemma match_here_url prev s m :
  match_here false url_pattern prev s = Some m ->
  exists scheme rest,
    (scheme = "http://" \/ scheme = "https://")
    /\ s = scheme ++ rest
    /\ Text.first_is nonspace rest = true
    /\ m = scheme ++ Scan.run nonspace rest.
Proof.
  unfold match_here, url_pattern.
  change (fun (_ : option ascii) rest =>
            Some (Str.take (String.length s - String.length rest) s))
    with (fun (_ : option ascii) rest => Some (Scan.before s rest)).
  rewrite ReFacts.go_cat, ReFacts.go_lits.
  destruct (starts false "http" s) eqn:Hhttp; [|done].
  apply starts_split in Hhttp. simpl String.length in Hhttp |- *.
  rewrite ReFacts.go_cat, ReFacts.go_opt.
  remember (Str.drop 4 s) as x eqn:Hx. clear Hx.
  assert (Hdone : forall scheme rest,
            s = scheme ++ rest ->
            Scan.before s (Scan.after_run nonspace rest) = scheme ++ Scan.run nonspace rest).
  { intros scheme rest ->. unfold Scan.before.
    rewrite <- (run_after_run nonspace rest) at 1 3.
    replace (scheme ++ Scan.run nonspace rest ++ Scan.after_run nonspace rest)
      with ((scheme ++ Scan.run nonspace rest) ++ Scan.after_run nonspace rest).
    - apply take_before.
    - clear. induction scheme as [|c t IH]; [done|].
      change (String c ((t ++ Scan.run nonspace rest) ++ Scan.after_run nonspace rest)
              = String c (t ++ Scan.run nonspace rest ++ Scan.after_run nonspace rest)).
      by rewrite IH. }
  assert (Hplain : forall p,
            go false (Cat (lits "://") (Plus nonspace)) p x
              (fun _ rest => Some (Scan.before s rest)) = Some m ->
            exists scheme rest,
              (scheme = "http://" \/ scheme = "https://")
              /\ s = scheme ++ rest
              /\ Text.first_is nonspace rest = true
              /\ m = scheme ++ Scan.run nonspace rest).
  { intros p. rewrite go_sep_exact.
    destruct (Str.startswith x "://") eqn:Hsep; [|done].
    destruct (Text.first_is nonspace (Str.drop 3 x)) eqn:Hfirst; [|done].
    intros [= <-]. rewrite <- starts_exact in Hsep. apply starts_split in Hsep.
    simpl String.length in Hsep.
    assert (Hs : s = "http://" ++ Str.drop 3 x) by (rewrite Hhttp, Hsep at 1; done).
    exists "http://", (Str.drop 3 x). repeat split; [by left | done..|].
    by apply Hdone. }
  destruct x as [|b y]; [apply Hplain|].
  change (go false (Lit "s") ?p (String b y) ?K)
    with (if lit_ok false "s" b then K (Some b) y else None).
  unfold lit_ok. destruct (Ascii.eqb_spec "s"%char b) as [<-|]; [|apply Hplain].
  rewrite go_sep_exact.
  destruct (Str.startswith y "://" && Text.first_is nonspace (Str.drop 3 y)) eqn:Hy;
    [|apply Hplain].
  apply andb_prop in Hy as [Hsep Hfirst].
  intros [= <-]. rewrite <- starts_exact in Hsep. apply starts_split in Hsep.
  simpl String.length in Hsep.
  assert (Hs : s = "https://" ++ Str.drop 3 y) by (rewrite Hhttp, Hsep at 1; done).
  exists "https://", (Str.drop 3 y). repeat split; [by right | done..|].
  by apply Hdone.
Qed.

Lemma go_sep_any {A} ic prev x (k : option ascii -> string -> option A) :
  (forall p y, some (k p y) = true) ->
  some (go ic (Cat (lits "://") (Plus nonspace)) prev x k)
  = starts ic "://" x && Rules.char_at nonspace 3 x.
Proof.
  intros Hk. rewrite ReFacts.go_cat, ReFacts.go_lits.
  destruct (starts ic "://" x); [|done].
  cbn [go andb]. rewrite (ReFacts.plus_some _ _ k Hk).
  by rewrite ReFacts.char_at_drop.
Qed.

Lemma go_tail_any {A} ic prev x (k : option ascii -> string -> option A) :
  (forall p y, some (k p y) = true) ->
  some (go ic (Cat (Opt (Lit "s")) (Cat (lits "://") (Plus nonspace))) prev x k)
  = (starts ic "://" x && Rules.char_at nonspace 3 x)
    || (starts ic "s" x && starts ic "://" (Str.drop 1 x)
        && Rules.char_at nonspace 4 x).
Proof.
  intros Hk. rewrite ReFacts.go_cat, ReFacts.go_opt, ReFacts.some_or, (go_sep_any ic prev x k Hk).
  rewrite orb_comm. f_equal.
  destruct x as [|b y]; [done|].
  change (starts ic "s" (String b y)) with (lit_ok ic "s" b && true).
  change (Str.drop 1 (String b y)) with y.
  change (Rules.char_at nonspace 4 (String b y)) with (Rules.char_at nonspace 3 y).
  change (go ic (Lit "s") prev (String b y) ?K)
    with (if lit_ok ic "s" b then K (Some b) y else None).
  destruct (lit_ok ic "s" b); [|done].
  by rewrite (go_sep_any ic (Some b) y k Hk).
Qed.

(** [https?://\S+] at a position, without flags: whether it matches. *)
Lemma match_here_url_some prev s :
  some (match_here false url_pattern prev s) = Scan.url_here s.
Proof.
  unfold Scan.url_here, match_here, url_pattern.
  rewrite ReFacts.go_cat, ReFacts.go_lits.
  rewrite <- !starts_exact.
  change "http://" with ("http" ++ "://").
  change "https://" with ("http" ++ "s" ++ "://").
  rewrite !ReFacts.starts_app.
  destruct (starts false "http" s); [|done].
  rewrite go_tail_any by done.
  rewrite !ReFacts.char_at_drop, !ReFacts.drop_drop. reflexivity.
Qed.

(** A match found by the search, the text around it, and the positions
    before it, none of which starts a match. *)
Lemma search_from_some ic r prev s m rest :
  search_from ic r prev s = Some (m, rest) ->
  exists pre x prev',
    s = pre ++ x /\ match_here ic r prev' x = Some m
    /\ (forall a b, pre = a ++ b -> b <> "" ->
          exists prev'', match_here ic r prev'' (b ++ x) = None).
Proof.
  revert prev. induction s as [|c s IH]; intros prev; simpl.
  - destruct (match_here ic r prev "") as [m'|] eqn:Hm; [|done].
    intros [= <- <-]. exists "", "", prev. split; [done|]. split; [done|].
    intros a b Ha Hb. by destruct a, b.
  - destruct (match_here ic r prev (String c s)) as [m'|] eqn:Hm.
    + intros [= <- <-]. exists "", (String c s), prev. split; [done|]. split; [done|].
      intros a b Ha Hb. by destruct a, b.
    + intros Hs. destruct (IH _ Hs) as (pre & x & prev' & -> & Hx & Hleft).
      exists (String c pre), x, prev'. split; [done|]. split; [done|].
      intros [|d a] b Hpre Hb.
      * exists prev. change ("" ++ b) with b in Hpre. by rewrite <- Hpre.
      * injection Hpre as <- ->. by apply (Hleft a b).
Qed.

Lemma findall_head r s m others :
  findall r s = m :: others ->
  exists rest, search_from false r None s = Some (m, rest).
Proof.
  unfold findall. simpl. destruct (search_from false r None s) as [[m' rest]|]; [|done].
  intros [= <- _]. by exists rest.
Qed.

Lemma app_assoc_string (a b c : string) : (a ++ b) ++ c = a ++ b ++ c.
Proof.
  induction a as [|d a IH]; [done|].
  change (String d ((a ++ b) ++ c) = String d (a ++ b ++ c)). by rewrite IH.
Qed.

Lemma search_from_eq ic r prev s :
  search_from ic r prev s
  = match match_here ic r prev s with
    | Some m => Some (m, Str.drop (String.length m) s)
    | None =>
        match s with
        | "" => None
        | String c s' => search_from ic r (Some c) s'
        end
    end.
Proof. by destruct s. Qed.

Lemma contains_eq s sub :
  Str.contains s sub
  = Str.startswith s sub || match s with "" => false | String _ s' => Str.contains s' sub end.
Proof. by destruct s. Qed.

(** No match without the lower-case text [http]. *)
Lemma search_needs_http r prev s :
  Str.contains s "http" = false ->
  search_from false (Cat (lits "http") r) prev s = None.
Proof.
  revert prev. induction s as [|c s IH]; intros prev Hs;
    rewrite contains_eq in Hs; apply orb_false_elim in Hs as [Hhere Hs];
    rewrite search_from_eq; unfold match_here;
    rewrite ReFacts.go_cat, ReFacts.go_lits, starts_exact, Hhere; [done|].
  by apply IH.
Qed.

Lemma findall_needs_http r s :
  Str.contains s "http" = false -> findall (Cat (lits "http") r) s = [].
Proof.
  intros Hs. unfold findall.
  change (findall_from (S ?n) ?r None s)
    with (match search_from false r None s with
          | Some (m, rest) => m :: findall_from n r (last_char None m) rest
          | None => []
          end).
  by rewrite search_needs_http.
Qed.

(** X5.  The URL that the Webpage handler fetches, the first element of
    [re.findall(r'(https?://\S+)', question)], is a piece of the question:
    the scheme http:// or https:// in lower case, followed by a non-empty
    run of characters that are no white space, which ends at the next white
    space or at the end of the question; and no earlier position of the
    question starts such a URL. *)
Theorem first_url_shape question url others :
  findall url_pattern question = url :: others ->
  exists pre scheme body post,
    question = pre ++ url ++ post
    /\ url = scheme ++ body
    /\ (scheme = "http://" \/ scheme = "https://")
    /\ Text.first_is nonspace body = true
    /\ Text.all nonspace body = true
    /\ Text.first_is nonspace post = false
    /\ (forall a b, pre = a ++ b -> b <> "" -> Scan.url_here (b ++ url ++ post) = false).
Proof.
  intros Hfind. destruct (findall_head _ _ _ _ Hfind) as [rest Hsearch].
  destruct (search_from_some _ _ _ _ _ _ Hsearch) as (pre & x & prev' & Hq & Hm & Hleft).
  destruct (match_here_url _ _ _ Hm) as (scheme & tail & Hscheme & Hx & Hfirst & Hurl).
  assert (Hsplit : x = url ++ Scan.after_run nonspace tail).
  { rewrite Hx, Hurl, app_assoc_string. by rewrite run_after_run. }
  exists pre, scheme, (Scan.run nonspace tail), (Scan.after_run nonspace tail).
  rewrite <- Hsplit.
  split; [done|]. split; [done|]. split; [done|].
  split; [by apply run_first|]. split; [apply run_all|]. split; [apply after_run_first|].
  intros a b Hpre Hb. destruct (Hleft a b Hpre Hb) as [prev'' Hnone].
  by rewrite <- (match_here_url_some prev''), Hnone.
Qed.

End FindFacts.

Lemma first_url_shape_witness :
  exists pre scheme body post,
    "Summarise https://example.com/page please" = pre ++ "https://example.com/page" ++ post
    /\ "https://example.com/page" = scheme ++ body
    /\ (scheme = "http://" \/ scheme = "https://")
    /\ Text.first_is Re.nonspace body = true
    /\ Text.all Re.nonspace body = true
    /\ Text.first_is Re.nonspace post = false
    /\ (forall a b, pre = a ++ b -> b <> "" ->
          Scan.url_here (b ++ "https://example.com/page" ++ post) = false).
Proof.
  apply (FindFacts.first_url_shape "Summarise https://example.com/page please"
           "https://example.com/page" []).
  vm_compute. reflexivity.
Defined.

(** ** Handlers that find no URL *)

(** X4.  The router looks for URLs in any case, the handlers extract them
    in lower case only.  A question without the lower-case text http that
    the router sends to the Webpage handler is answered with "No URL found
    in the question.", one sent to the YouTube handler with "No YouTube URL
    found in the question."; in both cases only the log of handlers
    changes. *)
Theorem no_lower_case_scheme env question file_path st :
  Str.contains question "http" = false ->
  (Rules.route question file_path = Webpage ->
   process_assignment_question env question file_path st
   = (Ret "No URL found in the question.", after_entering Webpage st))
  /\ (Rules.route question file_path = YouTube ->
      process_assignment_question env question file_path st
      = (Ret "No YouTube URL found in the question.", after_entering YouTube st)).
Proof.
  intros Hq. rewrite router_is_route. split; intros ->; simpl.
  - unfold process_webpage_question, bind, entered, Re.url_pattern.
    by rewrite FindFacts.findall_needs_http.
  - unfold process_youtube_question, bind, entered, Re.youtube_url_pattern.
    by rewrite FindFacts.findall_needs_http.
Qed.

Lemma no_lower_case_scheme_witness :
  process_assignment_question Scenario.env_web "Summarise HTTP://EXAMPLE.COM/page" None
    Example.empty
  = (Ret "No URL found in the question.", after_entering Webpage Example.empty)
  /\ process_assignment_question Scenario.env_web "Is youtube.com down today?" None
       Example.empty
     = (Ret "No YouTube URL found in the question.", after_entering YouTube Example.empty).
Proof.
  split.
  - apply (proj1 (no_lower_case_scheme Scenario.env_web
                    "Summarise HTTP://EXAMPLE.COM/page" None Example.empty eq_refl)).
    vm_compute. reflexivity.
  - apply (proj2 (no_lower_case_scheme Scenario.env_web
                    "Is youtube.com down today?" None Example.empty eq_refl)).
    vm_compute. reflexivity.
Defined.

(** ** What the handlers do to the file system *)

Section Files.
Variable env : Env.

Lemma files_ret {A} (a : A) : keeps_files (ret a).
Proof. done. Qed.

Lemma files_lift {A} (r : result A) : keeps_files (lift r).
Proof. done. Qed.

Lemma files_entered h : keeps_files (entered h).
Proof. done. Qed.

Lemma files_bind {A B} (m : M A) (f : A -> M B) :
  keeps_files m -> (forall a, keeps_files (f a)) -> keeps_files (bind m f).
Proof.
  intros Hm Hf st. unfold bind. specialize (Hm st).
  destruct (m st) as [[a|msg] st1]; [|done].
  simpl in Hm. destruct Hm as [<- <-]. apply Hf.
Qed.

Lemma files_try {A} (m : M A) (h : string -> M A) :
  keeps_files m -> (forall e, keeps_files (h e)) -> keeps_files (try_except m h).
Proof.
  intros Hm Hh st. unfold try_except. specialize (Hm st).
  destruct (m st) as [[a|msg] st1]; [done|].
  simpl in Hm. destruct Hm as [<- <-]. apply Hh.
Qed.

Lemma files_is_zipfile p : keeps_files (OS.is_zipfile env p).
Proof. intros st. unfold OS.is_zipfile. by destruct (fs st !! p) as [[?|?]|]. Qed.

Lemma files_walk top : keeps_files (OS.walk top).
Proof. intros st. unfold OS.walk. by destruct (fs st !! top) as [[?|?]|]. Qed.

Lemma files_pd_read_csv p : keeps_files (OS.pd_read_csv env p).
Proof. intros st. unfold OS.pd_read_csv. by destruct (fs st !! p) as [[?|?]|]. Qed.

Lemma files_general question : keeps_files (process_general_question env question).
Proof. intros st. by destruct (general_returns env question st) as [answer ->]. Qed.

Lemma files_pdf question file_path : keeps_files (process_pdf_question question file_path).
Proof. done. Qed.

Lemma files_youtube question : keeps_files (process_youtube_question env question).
Proof.
  apply files_bind; [apply files_entered|]. intros _.
  destruct (Re.findall _ question) as [|url rest]; [apply files_ret|].
  apply files_try; [|intros e; apply files_ret].
  apply files_bind; [apply files_lift|]. intros yt. apply files_general.
Qed.

Lemma files_webpage question : keeps_files (process_webpage_question env question).
Proof.
  apply files_bind; [apply files_entered|]. intros _.
  destruct (Re.findall _ question) as [|url rest]; [apply files_ret|].
  apply files_try; [|intros e; apply files_ret].
  apply files_bind; [apply files_lift|]. intros text.
  apply files_bind; [apply files_lift|]. intros page. apply files_general.
Qed.

Lemma files_table_answer question df : keeps_files (table_answer env question df).
Proof.
  unfold table_answer.
  destruct (Str.contains _ _); [|apply files_general].
  destruct (has_column df "answer"); [|apply files_ret].
  apply files_bind; [apply files_lift | intros v; apply files_ret].
Qed.

(** After the scratch directory is filled: the rest of the ZIP branch. *)
Lemma files_zip_rest question temp_dir :
  keeps_files
    (let* walked := OS.walk temp_dir in
     match collect_csv walked with
     | [] => ret "No CSV files found in the ZIP archive."
     | (csv_file_path, csv_bytes) :: _ =>
         let* df := lift (read_csv env csv_bytes) in table_answer env question df
     end).
Proof.
  apply files_bind; [apply files_walk|]. intros walked.
  destruct (collect_csv walked) as [|[csv_path csv_bytes] others]; [apply files_ret|].
  apply files_bind; [apply files_lift|]. intros df. apply files_table_answer.
Qed.

Lemma files_direct_rest question file_path :
  keeps_files
    (if Str.endswith file_path ".csv" then
       let* df := OS.pd_read_csv env file_path in table_answer env question df
     else ret "Unsupported file format.").
Proof.
  destruct (Str.endswith file_path ".csv"); [|apply files_ret].
  apply files_bind; [apply files_pd_read_csv|]. intros df. apply files_table_answer.
Qed.

Lemma scratch_only_lookup before after p e :
  scratch_only before after -> before !! p = Some e -> after !! p = Some e.
Proof.
  intros [-> | (dir & ts & Hfree & ->)] Hp; [done|].
  rewrite lookup_insert_ne; [done|]. intros ->. congruence.
Qed.

Lemma csv_scratch_only question file_path st :
  scratch_only (fs st) (fs (snd (process_csv_question env question file_path st))).
Proof.
    unfold process_csv_question. unfold bind at 1. unfold entered.
    unfold bind at 1.
    assert (His : exists b,
              (if Str.endswith file_path ".zip" then ret true
               else OS.is_zipfile env file_path) (after_entering CSV st)
              = (Ret b, after_entering CSV st)).
    { destruct (Str.endswith file_path ".zip"); [by exists true|].
      unfold OS.is_zipfile. simpl fs.
      destruct (fs st !! file_path) as [[bytes|ts]|]; by eexists. }
    destruct His as [b ->]. destruct b.
    - unfold bind at 1. unfold OS.mkdtemp, OS.create_temp. simpl fs. simpl drawn.
      destruct (OS.fresh_path env (TMP_MAX env) (drawn st) (fs st)) as [[dir i]|] eqn:Hfresh;
        [|by left].
      pose proof (fresh_path_free _ _ _ _ _ _ Hfresh) as Hfree.
      unfold bind at 1. unfold OS.extractall. simpl fs.
      destruct (<[dir:=EDir []]> (fs st) !! file_path) as [[bytes|ts]|];
        try (right; by exists dir, []).
      destruct (zip_extract env bytes) as [ts|msg]; [|right; by exists dir, []].
      match goal with
      | |- scratch_only _ (fs (snd (?m ?s))) =>
          assert (Hfiles : fs (snd (m s)) = fs s)
            by apply (files_zip_rest question dir s)
      end.
      rewrite Hfiles. unfold set_fs. simpl fs. right. exists dir, ts.
      split; [done|]. apply insert_insert_eq.
    - match goal with
      | |- scratch_only _ (fs (snd (?m ?s))) =>
          assert (Hfiles : fs (snd (m s)) = fs s)
            by apply (files_direct_rest question file_path s)
      end.
      rewrite Hfiles. by left.
Qed.


(** The router keeps the files unless it runs the CSV handler. *)
Lemma files_router question file_path :
  Rules.route question file_path <> CSV ->
  keeps_files (process_assignment_question env question file_path).
Proof.
  intros Hroute. rewrite router_is_route.
  destruct (Rules.route question file_path); simpl; [done|..].
  - apply files_pdf.
  - apply files_youtube.
  - apply files_webpage.
  - apply files_general.
Qed.

Lemma router_scratch_only question file_path st :
  scratch_only (fs st) (fs (snd (process_assignment_question env question file_path st))).
Proof.
  rewrite router_is_route.
  destruct (Rules.route question file_path); [apply csv_scratch_only|left..].
  - apply (proj1 (files_pdf question (the_path file_path) st)).
  - apply (proj1 (files_youtube question st)).
  - apply (proj1 (files_webpage question st)).
  - apply (proj1 (files_general question st)).
Qed.

End Files.


(** ** Further properties of the endpoint *)

Section EndpointMore.
Variable env : Env.

Lemma router_returns_other question file_path st :
  Rules.route question file_path <> CSV ->
  exists answer st',
    process_assignment_question env question file_path st = (Ret answer, st')
    /\ fs st' = fs st /\ drawn st' = drawn st.
Proof.
  intros Hroute.
  destruct (files_router env question file_path Hroute st) as [Hfs Hdrawn].
  revert Hfs Hdrawn. rewrite router_is_route.
  destruct (Rules.route question file_path) eqn:Hr; [done|..]; simpl.
  - by eexists _, _.
  - destruct (youtube_returns env question st) as (a & st' & ->). by eexists _, _.
  - destruct (webpage_returns env question st) as (a & st' & ->). by eexists _, _.
  - destruct (general_returns env question st) as (a & ->). by eexists _, _.
Qed.

Lemma route_without_file question : Rules.route question None <> CSV.
Proof.
  unfold Rules.route. simpl.
  destruct (_ || _); [done|]. by destruct (Rules.has_url question).
Qed.

(** X6.  A request with a question and without a file, or with a file
    field whose file name is empty, is always answered with status 200: the
    body carries the answer of the router called without a path, and the
    file system is left as it was. *)
Theorem request_without_upload req st question :
  form_question req = Some question -> question <> "" ->
  (upload req = None \/ exists content, upload req = Some ("", content)) ->
  exists answer st',
    process_assignment_question env question None st = (Ret answer, st')
    /\ process_question env req st
       = ({| status := 200; body := JsonAnswer answer |}, st')
    /\ fs st' = fs st /\ drawn st' = drawn st.
Proof.
  intros Hq Hne Hup.
  destruct (router_returns_other question None st (route_without_file question))
    as (answer & st' & Hrun & Hfs & Hdrawn).
  exists answer, st'. split; [done|]. split; [|done].
  unfold process_question, process_question_body. rewrite Hq.
  apply String.eqb_neq in Hne. rewrite Hne.
  assert (Hattach :
    (match upload req with
     | Some (filename, content) =>
         if negb (String.eqb filename "") then
           let* temp_name := OS.NamedTemporaryFile env in
           do OS.save content temp_name then ret (Some temp_name)
         else ret None
     | None => ret None
     end) st = (Ret None, st)).
  { by destruct Hup as [-> | [content ->]]. }
  unfold bind at 1. rewrite Hattach.
  unfold bind at 1. rewrite Hrun. done.
Qed.

(** X7.  A request with an uploaded file whose question mentions neither
    .zip nor .csv is answered with status 200, and the file system ends
    exactly as it began: the temporary file that held the upload is the
    only path created, and it is removed. *)
Theorem upload_round_trip req st question filename content :
  form_question req = Some question -> question <> "" ->
  upload req = Some (filename, content) -> filename <> "" ->
  Rules.mentions ".zip" question || Rules.mentions ".csv" question = false ->
  temp_available env st ->
  (exists answer,
     fst (process_question env req st) = {| status := 200; body := JsonAnswer answer |})
  /\ fs (snd (process_question env req st)) = fs st.
Proof.
  intros Hq Hne Hup Hname Hmention [[p i] Hfresh].
  pose proof (fresh_path_free _ _ _ _ _ _ Hfresh) as Hfree.
  rewrite (process_question_upload _ _ _ _ _ _ _ _ Hq Hne Hup Hname Hfresh).
  assert (Hroute : Rules.route question (Some p) <> CSV).
  { unfold Rules.route. rewrite Hmention, andb_false_r. cbv iota.
    destruct (path_given (Some p) && _); [done|].
    destruct (Rules.contains_ci "youtube.com" question || _); [done|].
    by destruct (Rules.has_url question). }
  match goal with
  | |- context [process_assignment_question env question (Some p) ?s] =>
      destruct (router_returns_other question (Some p) s Hroute)
        as (answer & st2 & -> & Hfs & _)
  end.
  simpl in Hfs. rewrite Hfs, lookup_insert_eq.
  split; [by exists answer|].
  unfold set_fs. simpl. rewrite Hfs, !delete_insert_eq. by apply delete_id.
Qed.

(** X9.  When a request with an uploaded file is answered with status 500,
    the body carries an error message and the temporary file that holds the
    upload is still there, with the uploaded bytes: no failure path removes
    it. *)
Theorem upload_kept_on_failure req st filename content p st1 :
  upload req = Some (filename, content) -> filename <> "" ->
  OS.NamedTemporaryFile env st = (Ret p, st1) ->
  status (fst (process_question env req st)) = 500 ->
  (exists msg, body (fst (process_question env req st)) = JsonError msg)
  /\ fs (snd (process_question env req st)) !! p = Some (EFile content).
Proof.
  intros Hup Hname Htemp. destruct (named_temporary_file _ _ _ _ Htemp) as [i Hfresh].
  destruct (form_question req) as [question|] eqn:Hq;
    [destruct (String.eqb_spec question "") as [->|Hne]|].
  - unfold process_question, process_question_body. by rewrite Hq.
  - rewrite (process_question_upload _ _ _ _ _ _ _ _ Hq Hne Hup Hname Hfresh).
    match goal with
    | |- context [process_assignment_question env question (Some p) ?s] =>
        pose proof (router_scratch_only env question (Some p) s) as Hscratch;
        destruct (process_assignment_question env question (Some p) s)
          as [[answer|msg] st2]
    end;
      (apply scratch_only_lookup with (p := p) (e := EFile content) in Hscratch;
       [|apply lookup_insert_eq]); simpl in Hscratch.
    + by rewrite Hscratch.
    + intros _. split; [by exists msg | done].
  - unfold process_question, process_question_body. by rewrite Hq.
Qed.

(** X10.  Every response of [POST /] has one of three shapes: status 200
    with an answer, status 400 with the error "No question provided" (and
    then the question is missing or empty), or status 500 with an error
    message. *)
Theorem response_shape req st :
  let response := fst (process_question env req st) in
  (status response = 200 /\ exists answer, body response = JsonAnswer answer)
  \/ (status response = 400 /\ body response = JsonError "No question provided"
      /\ (form_question req = None \/ form_question req = Some ""))
  \/ (status response = 500 /\ exists msg, body response = JsonError msg).
Proof.
  unfold process_question, process_question_body.
  destruct (form_question req) as [question|]; [|right; left; by auto].
  destruct (String.eqb_spec question "") as [->|Hne]; [right; left; by auto|].
  unfold bind.
  match goal with
  | |- context [match ?attach st with _ => _ end] =>
      destruct (attach st) as [[attached|e] s1]; [|right; right; by eauto]
  end.
  destruct (process_assignment_question env question attached s1)
    as [[answer|e] s2]; [|right; right; by eauto].
  match goal with
  | |- context [match ?cleanup s2 with _ => _ end] =>
      destruct (cleanup s2) as [[[]|e] s3]; [left|right; right]; by eauto
  end.
Qed.

End EndpointMore.

Lemma request_without_upload_witness :
  exists answer st',
    process_assignment_question Example.env_online "What is 6 x 7?" None Example.st
    = (Ret answer, st')
    /\ process_question Example.env_online Scenario.req_plain Example.st
       = ({| status := 200; body := JsonAnswer answer |}, st')
    /\ fs st' = fs Example.st /\ drawn st' = drawn Example.st.
Proof.
  apply (request_without_upload Example.env_online Scenario.req_plain Example.st
           "What is 6 x 7?"); [reflexivity | discriminate | by left].
Defined.

Lemma upload_round_trip_witness :
  (exists answer,
     fst (process_question Example.env_online Scenario.req_unused_file Example.st)
     = {| status := 200; body := JsonAnswer answer |})
  /\ fs (snd (process_question Example.env_online Scenario.req_unused_file Example.st))
     = fs Example.st.
Proof.
  apply (upload_round_trip Example.env_online Scenario.req_unused_file Example.st
           "What is 6 x 7?" "notes.txt" "hello").
  - reflexivity.
  - discriminate.
  - reflexivity.
  - discriminate.
  - vm_compute. reflexivity.
  - eexists. vm_compute. reflexivity.
Defined.

Lemma upload_kept_on_failure_witness :
  (exists msg,
     body (fst (process_question Example.env Example.req_table Example.empty))
     = JsonError msg)
  /\ fs (snd (process_question Example.env Example.req_table Example.empty))
       !! "/tmp/tmpaaaaaaaa"
     = Some (EFile "PK-table").
Proof.
  apply (upload_kept_on_failure Example.env Example.req_table Example.empty
           "data.zip" "PK-table" "/tmp/tmpaaaaaaaa"
           (snd (OS.NamedTemporaryFile Example.env Example.empty))).
  - reflexivity.
  - discriminate.
  - vm_compute. reflexivity.
  - vm_compute. reflexivity.
Defined.

(** ** Further properties of the CSV handler *)

Section CsvMore.
Variable env : Env.


Lemma first_csv_name root (files : list (string * string)) name bytes :
  find (fun file => Str.endswith (fst file) ".csv") files = Some (name, bytes) ->
  exists others,
    flat_map (fun '(file, content) =>
      if Str.endswith file ".csv" then [(OS.path_join root file, content)] else [])
      files = (OS.path_join root name, bytes) :: others.
Proof.
  induction files as [|[file content] files IH]; simpl; [done|].
  destruct (Str.endswith file ".csv").
  - intros [= -> ->]. by eexists.
  - apply IH.
Qed.

(** X12.  When the root of the extracted archive holds files named
    [*.csv], the handler reads the first of them in listing order, whatever
    the sub-directories hold and wherever they are listed: [os.walk] visits
    the root before any sub-directory. *)
Theorem zip_root_csv_first question file_path st bytes dir i ts name csv_bytes :
  fs st !! file_path = Some (EFile bytes) ->
  zip_for_handler env file_path bytes ->
  OS.fresh_path env (TMP_MAX env) (drawn st) (fs st) = Some (dir, i) ->
  zip_extract env bytes = Ret ts ->
  find (fun file => Str.endswith (fst file) ".csv") (OS.filenames ts)
    = Some (name, csv_bytes) ->
  process_csv_question env question file_path st
  = (let* df := lift (read_csv env csv_bytes) in table_answer env question df)
      {| fs := <[dir := EDir ts]> (<[dir := EDir []]> (fs st));
         drawn := i; log := (log st ++ [CSV])%list |}.
Proof.
  intros Hfile Hzip Hfresh Hex Hfind.
  rewrite (csv_zip_run _ _ _ _ _ _ _ _ Hfile Hzip Hfresh Hex). cbv zeta.
  rewrite collect_csv_cons.
  destruct (first_csv_name dir _ _ _ Hfind) as [others ->]. done.
Qed.

End CsvMore.


Lemma zip_root_csv_first_witness :
  fst (process_csv_question Scenario.env_web
         "Give the value in the answer column of data.zip" "/srv/upload" Example.st_zip)
  = Ret "7".
Proof.
  rewrite (zip_root_csv_first Scenario.env_web
             "Give the value in the answer column of data.zip" "/srv/upload"
             Example.st_zip "PK-archive" "/tmp/tmpaaaaaaaa" 1
             [TDir "old" [TFile "first.csv" "x"]; TFile "notes.txt" "hello";
              TFile "table.csv" "answer,x"]
             "table.csv" "answer,x").
  - reflexivity.
  - vm_compute. reflexivity.
  - right. reflexivity.
  - vm_compute. reflexivity.
  - reflexivity.
  - reflexivity.
Defined.

(** ** The completion service and what is handed to it *)

Section Delegation.
Variable env : Env.

Lemma same_refl {A} (m : M A) : same m m.
Proof. done. Qed.

Lemma same_bind {A B} (m1 m2 : M A) (f1 f2 : A -> M B) :
  same m1 m2 -> (forall a, same (f1 a) (f2 a)) -> same (bind m1 f1) (bind m2 f2).
Proof.
  intros Hm Hf st. unfold bind. rewrite Hm.
  destruct (m2 st) as [[a|msg] st1]; [apply Hf | done].
Qed.

Lemma same_try {A} (m1 m2 : M A) (h1 h2 : string -> M A) :
  same m1 m2 -> (forall e, same (h1 e) (h2 e)) -> same (try_except m1 h1) (try_except m2 h2).
Proof.
  intros Hm Hh st. unfold try_except. rewrite Hm.
  destruct (m2 st) as [[a|msg] st1]; [done | apply Hh].
Qed.

Section WithoutKey.
Variable service : string -> result string.
Hypothesis no_key : key_configured env = false.

Lemma same_general question :
  same (process_general_question (with_chat env service) question)
       (process_general_question env question).
Proof.
  intros st. unfold process_general_question, bind, entered, try_except.
  change (key_configured (with_chat env service)) with (key_configured env).
  by rewrite no_key.
Qed.

Lemma fresh_path_same tries i files :
  OS.fresh_path (with_chat env service) tries i files = OS.fresh_path env tries i files.
Proof.
  revert i. induction tries as [|tries IH]; intros i; simpl; [done|]. by rewrite IH.
Qed.

Lemma same_mkdtemp : same (OS.mkdtemp (with_chat env service)) (OS.mkdtemp env).
Proof.
  intros st. unfold OS.mkdtemp, OS.create_temp.
  change (TMP_MAX (with_chat env service)) with (TMP_MAX env).
  by rewrite fresh_path_same.
Qed.

Lemma same_csv question file_path :
  same (process_csv_question (with_chat env service) question file_path)
       (process_csv_question env question file_path).
Proof.
  unfold process_csv_question.
  apply same_bind; [apply same_refl|]. intros _.
  apply same_bind; [apply same_refl|]. intros [|].
  - apply same_bind; [apply same_mkdtemp|]. intros temp_dir.
    apply same_bind; [apply same_refl|]. intros _.
    apply same_bind; [apply same_refl|]. intros walked.
    destruct (collect_csv walked) as [|[csv_path csv_bytes] others]; [apply same_refl|].
    apply same_bind; [apply same_refl|]. intros df.
    destruct (Str.contains _ _); [apply same_refl | apply same_general].
  - destruct (Str.endswith file_path ".csv"); [|apply same_refl].
    apply same_bind; [apply same_refl|]. intros df.
    destruct (Str.contains _ _); [apply same_refl | apply same_general].
Qed.

Lemma same_youtube question :
  same (process_youtube_question (with_chat env service) question)
       (process_youtube_question env question).
Proof.
  unfold process_youtube_question.
  apply same_bind; [apply same_refl|]. intros _.
  destruct (Re.findall _ question) as [|url rest]; [apply same_refl|].
  apply same_try; [|intros e; apply same_refl].
  apply same_bind; [apply same_refl|]. intros yt. apply same_general.
Qed.

Lemma same_webpage question :
  same (process_webpage_question (with_chat env service) question)
       (process_webpage_question env question).
Proof.
  unfold process_webpage_question.
  apply same_bind; [apply same_refl|]. intros _.
  destruct (Re.findall _ question) as [|url rest]; [apply same_refl|].
  apply same_try; [|intros e; apply same_refl].
  apply same_bind; [apply same_refl|]. intros text.
  apply same_bind; [apply same_refl|]. intros page. apply same_general.
Qed.

End WithoutKey.

(** X13.  Without a configured credential the completion service is never
    consulted: whatever the service would answer, the router gives the same
    result and leaves the same state, for every question and file path. *)
Theorem completion_unused_without_key service question file_path st :
  key_configured env = false ->
  process_assignment_question (with_chat env service) question file_path st
  = process_assignment_question env question file_path st.
Proof.
  intros Hkey. unfold process_assignment_question.
  destruct (path_given file_path && _); [by apply same_csv|].
  destruct (path_given file_path && _); [done|].
  destruct (Re.search true Re.youtube_pattern question); [by apply same_youtube|].
  destruct (Re.search true Re.url_pattern question); [by apply same_webpage|].
  by apply same_general.
Qed.

Lemma take_length n s : String.length (Str.take n s) <= n.
Proof.
  revert s. induction n as [|n IH]; intros s; [by destruct s|].
  destruct s as [|c s]; simpl; [lia|]. specialize (IH s). lia.
Qed.

Lemma take_prefix n s : exists rest, s = Str.take n s ++ rest.
Proof. exists (Str.drop n s). by rewrite FindFacts.take_drop. Qed.

Lemma take_all n s : String.length s <= n -> Str.take n s = s.
Proof.
  revert s. induction n as [|n IH]; intros s; destruct s as [|c s]; simpl; try done.
  - lia.
  - intros Hlen. rewrite IH; [done | lia].
Qed.

(** X14.  When the page of the first URL is fetched and parsed, the
    Webpage handler answers what the General handler answers for the
    question followed by a blank line, the line "Webpage content
    (excerpt):" and the excerpt; the excerpt is the beginning of the page
    text, at most 5000 characters long, and the whole text when that is no
    longer. *)
Theorem webpage_excerpt question st url rest page text :
  Re.findall Re.url_pattern question = url :: rest ->
  requests_get env url = Ret page ->
  soup_get_text env page = Ret text ->
  exists excerpt,
    process_webpage_question env question st
    = process_general_question env
        (question ++ Str.nl ++ Str.nl ++ "Webpage content (excerpt):" ++ Str.nl ++ excerpt)
        (after_entering Webpage st)
    /\ String.length excerpt <= 5000
    /\ (exists more, text = excerpt ++ more)
    /\ (String.length text <= 5000 -> excerpt = text).
Proof.
  intros Hurl Hget Hsoup. exists (Str.take 5000 text).
  split; [|split; [apply take_length | split; [apply take_prefix | apply take_all]]].
  unfold process_webpage_question, bind at 1, entered. rewrite Hurl.
  unfold try_except, bind, lift. rewrite Hget, Hsoup.
  match goal with
  | |- context [process_general_question env ?q ?s] =>
      by destruct (general_returns env q s) as [answer ->]
  end.
Qed.

Lemma head10_names df : map fst (columns (head10 df)) = map fst (columns df).
Proof.
  destruct df as [cols]. simpl. induction cols as [|col cols IH]; simpl; [done|].
  by rewrite IH.
Qed.

Lemma head10_rows df :
  Forall (fun col => length (snd col) <= 10) (columns (head10 df)).
Proof.
  destruct df as [cols]. simpl. induction cols as [|col cols IH]; simpl; constructor.
  - simpl. rewrite length_firstn. lia.
  - exact IH.
Qed.

Lemma head10_column df name : column (head10 df) name = firstn 10 (column df name).
Proof.
  destruct df as [cols]. unfold column. simpl.
  induction cols as [|col cols IH]; simpl; [done|].
  by destruct (String.eqb (fst col) name).
Qed.

(** X15.  For a CSV file that the handler loads and a question without the
    phrase "answer column", the handler answers what the General handler
    answers for the question followed by a blank line, the line "CSV
    content (first 10 rows):" and the rendering of a table that has the
    columns of the loaded one, in the same order, each cut to its first ten
    values. *)
Theorem csv_delegates_first_rows question file_path st df :
  csv_loaded env st file_path df ->
  Str.contains (Str.lower question) "answer column" = false ->
  exists shown st',
    process_csv_question env question file_path st
    = process_general_question env
        (question ++ Str.nl ++ Str.nl ++ "CSV content (first 10 rows):" ++ Str.nl
         ++ to_string env shown) st'
    /\ map fst (columns shown) = map fst (columns df)
    /\ Forall (fun col => length (snd col) <= 10) (columns shown)
    /\ (forall name, column shown name = firstn 10 (column df name)).
Proof.
  intros Hload Hq. destruct (loaded_run env question _ _ _ Hload) as [st' ->].
  exists (head10 df), st'.
  split; [|split; [apply head10_names | split; [apply head10_rows | apply head10_column]]].
  unfold table_answer. by rewrite Hq.
Qed.

End Delegation.

Lemma completion_unused_without_key_witness :
  process_assignment_question (with_chat Example.env (fun _ => Ret "42"))
    "What is 6 x 7?" None Example.empty
  = process_assignment_question Example.env "What is 6 x 7?" None Example.empty.
Proof. apply completion_unused_without_key. reflexivity. Defined.

Lemma webpage_excerpt_witness :
  exists excerpt,
    process_webpage_question Scenario.env_web "Summarise https://example.com/page please"
      Example.empty
    = process_general_question Scenario.env_web
        ("Summarise https://example.com/page please" ++ Str.nl ++ Str.nl
         ++ "Webpage content (excerpt):" ++ Str.nl ++ excerpt)
        (after_entering Webpage Example.empty)
    /\ String.length excerpt <= 5000
    /\ (exists more, "page" = excerpt ++ more)
    /\ (String.length "page" <= 5000 -> excerpt = "page").
Proof.
  apply (webpage_excerpt Scenario.env_web "Summarise https://example.com/page please"
           Example.empty "https://example.com/page" [] "<p>page</p>" "page").
  - vm_compute. reflexivity.
  - reflexivity.
  - reflexivity.
Defined.

Lemma csv_delegates_first_rows_witness :
  exists shown st',
    process_csv_question Example.env_online "How many rows are in data.zip?"
      "/srv/upload" Example.st_zip
    = process_general_question Example.env_online
        ("How many rows are in data.zip?" ++ Str.nl ++ Str.nl
         ++ "CSV content (first 10 rows):" ++ Str.nl
         ++ to_string Example.env_online shown) st'
    /\ map fst (columns shown) = ["answer"; "x"]
    /\ Forall (fun col => length (snd col) <= 10) (columns shown)
    /\ (forall name,
          column shown name
          = firstn 10 (column {| columns := [("answer", [VInt 7; VInt 8]);
                                             ("x", [VStr "a"; VStr "b"])] |} name)).
Proof.
  apply (csv_delegates_first_rows Example.env_online "How many rows are in data.zip?"
           "/srv/upload" Example.st_zip
           {| columns := [("answer", [VInt 7; VInt 8]); ("x", [VStr "a"; VStr "b"])] |}).
  - eapply (loaded_from_zip _ _ _ _ "PK-archive" "/tmp/tmpaaaaaaaa" 1).
    + vm_compute. reflexivity.
    + right. reflexivity.
    + vm_compute. reflexivity.
    + reflexivity.
    + vm_compute. reflexivity.
    + reflexivity.
  - vm_compute. reflexivity.
Defined.

(** ** The matcher finds texts of the pattern *)

Module LangFacts.

Import Re.

Lemma plus_sound {A} p s (k : option ascii -> string -> option A) a :
  plus p s k = Some a ->
  exists w s' prev',
    s = w ++ s' /\ Text.first_is p w = true /\ Text.all p w = true
    /\ k prev' s' = Some a.
Proof.
  revert a. induction s as [|c s IH]; intros a; simpl; [done|].
  destruct (p c) eqn:Hc; [|done].
  destruct (plus p s k) as [a'|] eqn:Hplus.
  - intros [= <-]. destruct (IH a' eq_refl) as (w & s' & prev' & -> & _ & Hall & Hk).
    exists (String c w), s', prev'. simpl. by rewrite Hc, Hall.
  - intros Hk. exists (String c ""), s, (Some c). simpl. by rewrite Hc.
Qed.

Lemma go_sound {A} ic r :
  forall prev s (k : option ascii -> string -> option A) a,
    go ic r prev s k = Some a ->
    exists w s' prev', s = w ++ s' /\ Lang.matches ic r w /\ k prev' s' = Some a.
Proof.
  induction r as [|c|p|r1 IH1 r2 IH2|r1 IH1 r2 IH2|r IH|p|]; intros prev s k a; simpl.
  - intros Hk. exists "", s, prev. split; [done|]. split; [constructor | done].
  - destruct s as [|b s]; [done|]. destruct (lit_ok ic c b) eqn:Hc; [|done].
    intros Hk. exists (String b ""), s, (Some b). split; [done|]. split; [by constructor | done].
  - destruct s as [|b s]; [done|]. destruct (p b) eqn:Hp; [|done].
    intros Hk. exists (String b ""), s, (Some b). split; [done|]. split; [by constructor | done].
  - intros H1. destruct (IH1 _ _ _ _ H1) as (w1 & s1 & p1 & -> & Hw1 & H2).
    destruct (IH2 _ _ _ _ H2) as (w2 & s2 & p2 & -> & Hw2 & Hk).
    exists (w1 ++ w2), s2, p2. split; [by rewrite FindFacts.app_assoc_string|].
    split; [by constructor | done].
  - destruct (go ic r1 prev s k) as [a'|] eqn:H1.
    + intros [= <-]. destruct (IH1 _ _ _ _ H1) as (w & s' & p' & -> & Hw & Hk).
      exists w, s', p'. split; [done|]. split; [by apply Lang.matches_alt_left | done].
    + intros H2. destruct (IH2 _ _ _ _ H2) as (w & s' & p' & -> & Hw & Hk).
      exists w, s', p'. split; [done|]. split; [by apply Lang.matches_alt_right | done].
  - destruct (go ic r prev s k) as [a'|] eqn:H1.
    + intros [= <-]. destruct (IH _ _ _ _ H1) as (w & s' & p' & -> & Hw & Hk).
      exists w, s', p'. split; [done|]. split; [by apply Lang.matches_opt_some | done].
    + intros Hk. exists "", s, prev. split; [done|]. split; [constructor | done].
  - intros Hplus. destruct (plus_sound _ _ _ _ Hplus) as (w & s' & p' & -> & Hf & Ha & Hk).
    exists w, s', p'. split; [done|]. split; [by constructor | done].
  - destruct (xorb _ _); [|done].
    intros Hk. exists "", s, prev. split; [done|]. split; [constructor | done].
Qed.

(** What [match_here] returns is a text of the pattern at the start of the
    text searched. *)
Lemma match_here_sound ic r prev s m :
  match_here ic r prev s = Some m ->
  Lang.matches ic r m /\ exists s', s = m ++ s'.
Proof.
  unfold match_here. intros Hgo.
  destruct (go_sound _ _ _ _ _ _ Hgo) as (w & s' & _ & -> & Hw & [= <-]).
  rewrite FindFacts.take_before. split; [done | by exists s'].
Qed.

Lemma findall_first_sound r s m others :
  findall r s = m :: others ->
  Lang.matches false r m /\ exists pre post, s = pre ++ m ++ post.
Proof.
  intros Hfind. destruct (FindFacts.findall_head _ _ _ _ Hfind) as [rest Hsearch].
  destruct (FindFacts.search_from_some _ _ _ _ _ _ Hsearch)
    as (pre & x & prev' & -> & Hm & _).
  destruct (match_here_sound _ _ _ _ _ Hm) as [Hw [post ->]].
  split; [done | by exists pre, post].
Qed.

Lemma matches_lits pat w : Lang.matches false (lits pat) w -> w = pat.
Proof.
  revert w. induction pat as [|c pat IH]; intros w Hw; simpl in Hw.
  - by inversion Hw.
  - inversion Hw as [| | |r1 r2 w1 w2 H1 H2| | | | | |]; subst.
    inversion H1 as [|c' b Hb| | | | | | | |]; subst.
    unfold lit_ok in Hb. apply Ascii.eqb_eq in Hb. subst b.
    by rewrite (IH _ H2).
Qed.

(** X16.  The URL that the YouTube handler hands to the metadata service,
    the first match of its pattern, is a piece of the question made of the
    scheme http:// or https://, an optional www., the host and path
    youtube.com/watch?v= or youtu.be/, and a non-empty identifier of
    letters, digits, underscores and dashes. *)
Theorem youtube_url_shape question url others :
  findall youtube_url_pattern question = url :: others ->
  exists pre post scheme www host id,
    question = pre ++ url ++ post
    /\ url = scheme ++ www ++ host ++ id
    /\ (scheme = "http://" \/ scheme = "https://")
    /\ (www = "" \/ www = "www.")
    /\ (host = "youtube.com/watch?v=" \/ host = "youtu.be/")
    /\ Text.first_is word_or_dash id = true
    /\ Text.all word_or_dash id = true.
Proof.
  intros Hfind.
  destruct (findall_first_sound _ _ _ _ Hfind) as [Hw (pre & post & Hq)].
  exists pre, post. unfold youtube_url_pattern in Hw.
  inversion Hw as [| | |? ? w1 x1 Hhttp H1| | | | | |]; subst. clear Hw.
  apply (matches_lits "http") in Hhttp. subst w1.
  inversion H1 as [| | |? ? o1 x2 Hs H2| | | | | |]; subst. clear H1.
  inversion H2 as [| | |? ? w3 x3 Hsep H3| | | | | |]; subst. clear H2.
  apply (matches_lits "://") in Hsep. subst w3.
  inversion H3 as [| | |? ? o2 x4 Hwww H4| | | | | |]; subst. clear H3.
  inversion H4 as [| | |? ? h id Hhost Hid| | | | | |]; subst. clear H4.
  inversion Hid as [| | | | | | | |? ? Hfirst Hall|]; subst. clear Hid.
  assert (Hscheme : exists scheme,
            (scheme = "http://" \/ scheme = "https://")
            /\ forall rest, "http" ++ o1 ++ "://" ++ rest = scheme ++ rest).
  { inversion Hs as [| | | | | |?|? ? Hlit| |]; subst.
    - exists "http://". by split; [left|].
    - inversion Hlit as [|? b Hb| | | | | | | |]; subst.
      unfold lit_ok in Hb. apply Ascii.eqb_eq in Hb. subst b.
      exists "https://". by split; [right|]. }
  destruct Hscheme as (scheme & Hscheme & Heq).
  assert (Hw : exists www, (www = "" \/ www = "www.") /\ o2 = www).
  { inversion Hwww as [| | | | | |?|? ? Hlits| |]; subst.
    - exists "". by split; [left|].
    - apply (matches_lits "www.") in Hlits. exists "www.". by split; [right|]. }
  destruct Hw as (www & Hwww' & ->).
  assert (Hh : h = "youtube.com/watch?v=" \/ h = "youtu.be/").
  { inversion Hhost as [| | | |? ? ? Hl|? ? ? Hr| | | |]; subst;
      [left; by apply (matches_lits "youtube.com/watch?v=")
      | right; by apply (matches_lits "youtu.be/")]. }
  exists scheme, www, h, id.
  split; [done|]. split; [by rewrite Heq|]. done.
Qed.

End LangFacts.

Lemma youtube_url_shape_witness :
  exists pre post scheme www host id,
    "Summarise https://www.youtube.com/watch?v=ab-c_1&t=3 please"
    = pre ++ "https://www.youtube.com/watch?v=ab-c_1" ++ post
    /\ "https://www.youtube.com/watch?v=ab-c_1" = scheme ++ www ++ host ++ id
    /\ (scheme = "http://" \/ scheme = "https://")
    /\ (www = "" \/ www = "www.")
    /\ (host = "youtube.com/watch?v=" \/ host = "youtu.be/")
    /\ Text.first_is Re.word_or_dash id = true
    /\ Text.all Re.word_or_dash id = true.
Proof.
  apply (LangFacts.youtube_url_shape
           "Summarise https://www.youtube.com/watch?v=ab-c_1&t=3 please"
           "https://www.youtube.com/watch?v=ab-c_1" []).
  vm_compute. reflexivity.
Defined.

(** ** The PDF stub and the answer column *)

Section Stubs.
Variable env : Env.

(** X17.  A request with an uploaded file whose question mentions .pdf and
    neither .zip nor .csv is answered with status 200 and the fixed sentence
    of the PDF handler, whatever the uploaded bytes are: only the PDF
    handler is entered, and the file system ends as it began. *)
Theorem pdf_upload_gets_fixed_answer req st question filename content :
  form_question req = Some question ->
  upload req = Some (filename, content) -> filename <> "" ->
  Rules.mentions ".zip" question || Rules.mentions ".csv" question = false ->
  Rules.mentions ".pdf" question = true ->
  temp_available env st ->
  fst (process_question env req st)
  = {| status := 200;
       body := JsonAnswer "PDF processing requires additional libraries. Please extract the relevant information from the PDF and include it in your question." |}
  /\ fs (snd (process_question env req st)) = fs st
  /\ log (snd (process_question env req st)) = (log st ++ [PDF])%list.
Proof.
  intros Hq Hup Hname Hother Hpdf [[p i] Hfresh].
  pose proof (fresh_path_free _ _ _ _ _ _ Hfresh) as Hfree.
  destruct (TempFacts.fresh_path_plain env _ _ _ _ _ Hfresh) as (Hp & _).
  assert (Hne : question <> "") by (by intros ->).
  rewrite (process_question_upload _ _ _ _ _ _ _ _ Hq Hne Hup Hname Hfresh).
  unfold process_assignment_question.
  apply String.eqb_neq in Hp.
  unfold path_given. rewrite Hp, search_zip, search_csv, search_pdf, Hother, Hpdf.
  cbn [negb andb the_path].
  unfold process_pdf_question, bind, entered, ret, after_entering. cbn [fs].
  rewrite lookup_insert_eq. unfold set_fs. cbn [fst snd fs log].
  split; [done|]. split; [|done].
  rewrite !delete_insert_eq. by apply delete_id.
Qed.

Lemma keeps_log_table_answer question df :
  Str.contains (Str.lower question) "answer column" = true ->
  keeps_log (table_answer env question df).
Proof.
  intros Hq. unfold table_answer. rewrite Hq.
  destruct (has_column df "answer"); [|apply keeps_ret].
  apply keeps_bind; [apply keeps_lift | intros v; apply keeps_ret].
Qed.

(** X18.  For a question that contains "answer column" in any case, the
    CSV handler never delegates to the General handler, whatever the file
    is and however the call ends: the answer costs no completion. *)
Theorem phrase_question_never_delegates question file_path st :
  Str.contains (Str.lower question) "answer column" = true ->
  log (snd (process_csv_question env question file_path st)) = (log st ++ [CSV])%list.
Proof.
  intros Hq.
  assert (Hrest : forall rest : M string,
            keeps_log rest ->
            log (snd ((do entered CSV then rest) st)) = (log st ++ [CSV])%list).
  { intros rest Hkeeps. unfold bind at 1, entered. by rewrite Hkeeps. }
  apply Hrest.
  apply keeps_bind.
  { destruct (Str.endswith file_path ".zip"); [apply keeps_ret | apply keeps_is_zipfile]. }
  intros [|].
  - apply keeps_bind; [apply keeps_create_temp|]. intros temp_dir.
    apply keeps_bind; [apply keeps_extractall|]. intros _.
    apply keeps_bind; [apply keeps_walk|]. intros walked.
    destruct (collect_csv walked) as [|[csv_path csv_bytes] others]; [apply keeps_ret|].
    apply keeps_bind; [apply keeps_lift|]. intros df.
    by apply (keeps_log_table_answer question df).
  - destruct (Str.endswith file_path ".csv"); [|apply keeps_ret].
    apply keeps_bind; [apply keeps_pd_read_csv|]. intros df.
    by apply (keeps_log_table_answer question df).
Qed.

End Stubs.

Lemma pdf_upload_gets_fixed_answer_witness :
  fst (process_question Example.env_online Scenario.req_pdf Example.st)
  = {| status := 200;
       body := JsonAnswer "PDF processing requires additional libraries. Please extract the relevant information from the PDF and include it in your question." |}
  /\ fs (snd (process_question Example.env_online Scenario.req_pdf Example.st))
     = fs Example.st
  /\ log (snd (process_question Example.env_online Scenario.req_pdf Example.st))
     = (log Example.st ++ [PDF])%list.
Proof.
  apply (pdf_upload_gets_fixed_answer Example.env_online Scenario.req_pdf Example.st
           "What is the title of report.pdf?" "report.pdf" "%PDF-1.7").
  - reflexivity.
  - reflexivity.
  - discriminate.
  - vm_compute. reflexivity.
  - vm_compute. reflexivity.
  - eexists. vm_compute. reflexivity.
Defined.

Lemma phrase_question_never_delegates_witness :
  log (snd (process_csv_question Example.env_online
              "Give the value in the Answer Column of data.zip" "/srv/upload"
              Example.st_zip))
  = (log Example.st_zip ++ [CSV])%list.
Proof. apply phrase_question_never_delegates. vm_compute. reflexivity. Defined.
